(** * API-Wrapper: the [net::HttpClient] wrapper around a transfer engine

    A shallow embedding of [includes/http_client.hpp] and
    [src/http_client.cpp].  The transfer engine (libcurl) is an external
    collaborator: its handles are modelled by the log of options set on
    them, and what the network does during one [curl_easy_perform] is an
    explicit oracle argument. *)

From Stdlib Require Import ZArith Lia Bool Ascii String List DecimalString.
From stdpp Require Import base option gmap.
Import ListNotations.

Local Open Scope string_scope.
Local Open Scope list_scope.

(** ** The part of [std::string] the wrapper uses *)

Module StdString.

(** [std::string::npos]: the "not found" answer of the searches. *)
Definition npos : option nat := None.

(** [s.find(c)]: index of the first occurrence of the character. *)
Fixpoint find_char (c : ascii) (s : string) : option nat :=
  match s with
  | EmptyString => npos
  | String a s' =>
      if Ascii.eqb a c then Some 0 else option_map S (find_char c s')
  end.

(** [s.find(pat)]: index of the first occurrence of the substring. *)
Fixpoint find (pat s : string) : option nat :=
  if String.prefix pat s then Some 0
  else match s with
       | EmptyString => npos
       | String _ s' => option_map S (find pat s')
       end.

(** [s.rfind(pat, 0)]: the last occurrence that starts at or before
    index 0, so the only candidate is index 0 itself. *)
Definition rfind0 (pat s : string) : option nat :=
  if String.prefix pat s then Some 0 else npos.

Fixpoint skip (n : nat) (s : string) : string :=
  match n, s with
  | 0, _ => s
  | S _, EmptyString => EmptyString
  | S n', String _ s' => skip n' s'
  end.

Fixpoint first_n (n : nat) (s : string) : string :=
  match n, s with
  | 0, _ => EmptyString
  | S _, EmptyString => EmptyString
  | S n', String a s' => String a (first_n n' s')
  end.

(** [s.substr(pos, count)], with [count = npos] for "to the end".  Every
    call in the wrapper has [pos <= s.size()], so the [out_of_range]
    exception of [substr] does not arise. *)
Definition substr (pos : nat) (count : option nat) (s : string) : string :=
  match count with
  | None => skip pos s
  | Some n => first_n n (skip pos s)
  end.

Definition empty (s : string) : bool :=
  match s with EmptyString => true | _ => false end.

End StdString.

Definition CR : ascii := "013"%char.
Definition LF : ascii := "010"%char.
Definition TAB : ascii := "009"%char.
Definition SPACE : ascii := " "%char.
Definition COLON : ascii := ":"%char.

(** The two-byte line terminator ["\r\n"]. *)
Definition CRLF : string := String CR (String LF EmptyString).

(** ** Data model ([http_client.hpp]) *)

Record Response := mkResponse {
  status : Z;
  body : string;
  headers : list (string * string)
}.

(** [class HttpError : public std::runtime_error]: the one exception class
    the wrapper declares and throws; [what] is its message. *)
Inductive exn :=
| HttpError (what : string).

Record Options := mkOptions {
  timeout_ms : Z;
  follow_redirects : bool;
  user_agent : option string;
  verify_peer : bool;
  verify_host : bool
}.

(** [Options::Options()] *)
Definition Options_default : Options :=
  {| timeout_ms := 15000;
     follow_redirects := true;
     user_agent := Some "HttpClient/1.0";
     verify_peer := true;
     verify_host := true |}.

(** Address of an [HttpClient] object ([this], [&other], [userdata]). *)
Definition addr := nat.

(** [CURL*]: [None] is [nullptr]. *)
Definition CURLp := option nat.

Record HttpClient := mkHttpClient {
  h_ : CURLp;
  opt_ : Options;
  body_acc_ : string;
  hdr_acc_ : list (string * string)
}.

(** The static member functions whose addresses are given to the engine. *)
Inductive callback :=
| cb_write_body
| cb_write_header.

(** [s.c_str()] as the engine reads it: the bytes in front of the first
    zero byte. *)
Fixpoint c_str (s : string) : string :=
  match s with
  | EmptyString => EmptyString
  | String a s' =>
      if Ascii.eqb a "000"%char then EmptyString else String a (c_str s')
  end.

(** [struct Slist]: an owned [curl_slist*]; the null pointer is the empty
    list and [curl_slist_append] adds a copy of the C string it is given at
    the end. *)
Definition Slist := list string.

(** [void add(const std::string& h)], which hands [h.c_str()] to
    [curl_slist_append]. *)
Definition Slist_add (sl : Slist) (h : string) : Slist := sl ++ [c_str h].

(** The calls [curl_easy_setopt(h, OPTION, value)] the wrapper makes. *)
Inductive curlopt :=
| CURLOPT_WRITEFUNCTION (f : callback)
| CURLOPT_WRITEDATA (p : addr)
| CURLOPT_HEADERFUNCTION (f : callback)
| CURLOPT_HEADERDATA (p : addr)
| CURLOPT_TIMEOUT_MS (v : Z)
| CURLOPT_FOLLOWLOCATION (v : Z)
| CURLOPT_USERAGENT (s : string)
| CURLOPT_SSL_VERIFYPEER (v : Z)
| CURLOPT_SSL_VERIFYHOST (v : Z)
| CURLOPT_HTTPGET (v : Z)
| CURLOPT_URL (s : string)
| CURLOPT_POST (v : Z)
| CURLOPT_POSTFIELDS (data : string)
| CURLOPT_POSTFIELDSIZE (v : Z)
| CURLOPT_HTTPHEADER (sl : Slist).

(** ** The world: engine handles and wrapper objects *)

(** One live engine handle: the options set on it since its last reset, in
    call order, and the status code of its last transfer. *)
Record Easy := mkEasy {
  options : list curlopt;
  response_code : Z
}.

Record World := mkWorld {
  g_curl_once : bool;            (* [std::once_flag g_curl_once] has fired *)
  next_easy : nat;               (* identity of the next handle allocated *)
  easy : gmap nat Easy;          (* the live handles *)
  cleaned : list nat;            (* handles given to [curl_easy_cleanup] *)
  heap : gmap addr HttpClient    (* the constructed [HttpClient] objects *)
}.

Definition with_easy (w : World) (m : gmap nat Easy) : World :=
  {| g_curl_once := g_curl_once w; next_easy := next_easy w; easy := m;
     cleaned := cleaned w; heap := heap w |}.

Definition with_heap (w : World) (m : gmap addr HttpClient) : World :=
  {| g_curl_once := g_curl_once w; next_easy := next_easy w; easy := easy w;
     cleaned := cleaned w; heap := m |}.

(** How a call ends: it returns, it throws, or it has no defined behaviour
    (a member function called on storage that holds no object, a dangling
    handle). *)
Inductive outcome (A : Type) :=
| Return (a : A)
| Throw (e : exn)
| Undefined.
Arguments Return {A} a.
Arguments Throw {A} e.
Arguments Undefined {A}.

Definition M (A : Type) : Type := World -> outcome A * World.

Definition ret {A} (a : A) : M A := fun w => (Return a, w).

Definition throw {A} (e : exn) : M A := fun w => (Throw e, w).

Definition bind {A B} (m : M A) (k : A -> M B) : M B :=
  fun w =>
    match m w with
    | (Return a, w') => k a w'
    | (Throw e, w') => (Throw e, w')
    | (Undefined, w') => (Undefined, w')
    end.

Notation "x <- m ;; k" := (bind m (fun x => k))
  (at level 100, m at next level, right associativity).
Notation "m ;; k" := (bind m (fun _ => k))
  (at level 100, right associativity).

(** [*p] for an object pointer. *)
Definition deref (p : addr) : M HttpClient :=
  fun w => match heap w !! p with
           | Some c => (Return c, w)
           | None => (Undefined, w)
           end.

(** Assignment to members of [*p]. *)
Definition update (p : addr) (f : HttpClient -> HttpClient) : M unit :=
  fun w => match heap w !! p with
           | Some c => (Return tt, with_heap w (<[p := f c]> (heap w)))
           | None => (Undefined, w)
           end.

Definition set_h (h : CURLp) (c : HttpClient) : HttpClient :=
  {| h_ := h; opt_ := opt_ c; body_acc_ := body_acc_ c; hdr_acc_ := hdr_acc_ c |}.

Definition set_opt (o : Options) (c : HttpClient) : HttpClient :=
  {| h_ := h_ c; opt_ := o; body_acc_ := body_acc_ c; hdr_acc_ := hdr_acc_ c |}.

Definition set_body_acc (b : string) (c : HttpClient) : HttpClient :=
  {| h_ := h_ c; opt_ := opt_ c; body_acc_ := b; hdr_acc_ := hdr_acc_ c |}.

Definition set_hdr_acc (l : list (string * string)) (c : HttpClient) : HttpClient :=
  {| h_ := h_ c; opt_ := opt_ c; body_acc_ := body_acc_ c; hdr_acc_ := l |}.

(** ** The callbacks ([http_client.cpp], lines 67-95)

    The engine calls them with [size * nmemb] bytes at [ptr]; here the
    argument is that byte string and the result is the count returned. *)

Definition write_body_cb (ptr : string) (userdata : addr) : M nat :=
  update userdata (fun self => set_body_acc (body_acc_ self ++ ptr) self);;
  ret (String.length ptr).

(** The [while] loop of [split_header_line]: [rest] is the line from index
    [start] on; the loop stops at the end of the line or at the first
    character that is neither a space nor a tab. *)
Fixpoint advance_blanks (rest : string) (start : nat) : nat :=
  match rest with
  | EmptyString => start
  | String c rest' =>
      if Ascii.eqb c SPACE || Ascii.eqb c TAB
      then advance_blanks rest' (S start)
      else start
  end.

Definition split_header_line (line : string) : string * string :=
  match StdString.find_char COLON line with
  | None => (line, "")
  | Some pos =>
      let start := advance_blanks (StdString.skip (pos + 1) line) (pos + 1) in
      (StdString.substr 0 (Some pos) line, StdString.substr start None line)
  end.

(** What [write_header_cb] does to the object it is bound to. *)
Definition header_line_received (line : string) (self : HttpClient) : HttpClient :=
  if decide (StdString.rfind0 "HTTP/" line = Some 0) then
    set_hdr_acc [] self
  else if negb (StdString.empty line) && negb (String.eqb line CRLF) then
    let kv := split_header_line
                (StdString.substr 0 (StdString.find CRLF line) line) in
    set_hdr_acc (hdr_acc_ self ++ [kv]) self
  else self.

Definition write_header_cb (buffer : string) (userdata : addr) : M nat :=
  let total := String.length buffer in
  update userdata (header_line_received buffer);;
  ret total.

Definition invoke (f : callback) (data : string) (userdata : addr) : M nat :=
  match f with
  | cb_write_body => write_body_cb data userdata
  | cb_write_header => write_header_cb data userdata
  end.

(** ** The transfer engine, as the wrapper uses it *)

Definition CURLE_OK : Z := 0.
Definition CURLE_WRITE_ERROR : Z := 23.
Definition CURLE_BAD_FUNCTION_ARGUMENT : Z := 43.

(** What the engine hands to the callbacks during one transfer. *)
Inductive event :=
| HeaderData (line : string)
| BodyData (chunk : string).

(** What happens on the network during one [curl_easy_perform]: the data
    delivered, the engine's result code and the final status code. *)
Record Transfer := mkTransfer {
  events : list event;
  result : Z;
  final_code : Z
}.

(** The network reacts to the request the handle is configured for. *)
Definition Network : Type := list curlopt -> Transfer.

(** The outcome of the initialisation calls of one construction. *)
Record Env := mkEnv {
  global_init_rc : Z;      (* what [curl_global_init] returns when called *)
  easy_init_ok : bool      (* whether [curl_easy_init] can allocate *)
}.

(** The value an option has on a handle is the one set last. *)
Definition registered {A} (sel : curlopt -> option A) (opts : list curlopt) : option A :=
  fold_left (fun acc o => match sel o with Some a => Some a | None => acc end)
            opts None.

Definition sel_writefunction (o : curlopt) : option callback :=
  match o with CURLOPT_WRITEFUNCTION f => Some f | _ => None end.
Definition sel_writedata (o : curlopt) : option addr :=
  match o with CURLOPT_WRITEDATA p => Some p | _ => None end.
Definition sel_headerfunction (o : curlopt) : option callback :=
  match o with CURLOPT_HEADERFUNCTION f => Some f | _ => None end.
Definition sel_headerdata (o : curlopt) : option addr :=
  match o with CURLOPT_HEADERDATA p => Some p | _ => None end.

Definition payload (ev : event) : string :=
  match ev with HeaderData d => d | BodyData d => d end.

(** One callback invocation; without a registered callback the data go to
    the engine's own sink and the wrapper sees nothing. *)
Definition dispatch (opts : list curlopt) (ev : event) : M nat :=
  let (f, p) :=
    match ev with
    | HeaderData _ => (registered sel_headerfunction opts, registered sel_headerdata opts)
    | BodyData _ => (registered sel_writefunction opts, registered sel_writedata opts)
    end in
  match f, p with
  | Some f, Some p => invoke f (payload ev) p
  | _, _ => ret (String.length (payload ev))
  end.

(** The engine stops a transfer as soon as a callback returns a count other
    than the one it was given. *)
Fixpoint deliver (opts : list curlopt) (evs : list event) : M bool :=
  match evs with
  | [] => ret true
  | ev :: rest =>
      n <- dispatch opts ev;;
      if Nat.eqb n (String.length (payload ev)) then deliver opts rest
      else ret false
  end.

Definition curl_easy_init (ok : bool) : M CURLp :=
  fun w =>
    if ok then
      (Return (Some (next_easy w)),
       {| g_curl_once := g_curl_once w; next_easy := S (next_easy w);
          easy := <[next_easy w := mkEasy [] 0]> (easy w);
          cleaned := cleaned w; heap := heap w |})
    else (Return None, w).

Definition curl_easy_cleanup (id : nat) : M unit :=
  fun w =>
    match easy w !! id with
    | Some _ =>
        (Return tt,
         {| g_curl_once := g_curl_once w; next_easy := next_easy w;
            easy := delete id (easy w);
            cleaned := cleaned w ++ [id]; heap := heap w |})
    | None => (Undefined, w)
    end.

(** Read and write the state of the handle [h] points to; a null handle is
    rejected by the engine without effect, a dangling one is undefined. *)
Definition on_easy (h : CURLp) (f : Easy -> Easy) : M unit :=
  fun w =>
    match h with
    | None => (Return tt, w)
    | Some id =>
        match easy w !! id with
        | Some e => (Return tt, with_easy w (<[id := f e]> (easy w)))
        | None => (Undefined, w)
        end
    end.

(** [curl_easy_reset]; the engine does not define a reset of the null
    handle (libcurl 7.88 dereferences it). *)
Definition curl_easy_reset (h : CURLp) : M unit :=
  match h with
  | None => fun w => (Undefined, w)
  | Some _ => on_easy h (fun e => mkEasy [] (response_code e))
  end.

Definition curl_easy_setopt (h : CURLp) (o : curlopt) : M unit :=
  on_easy h (fun e => mkEasy (options e ++ [o]) (response_code e)).

Definition curl_easy_perform (h : CURLp) (net : Network) : M Z :=
  match h with
  | None => ret CURLE_BAD_FUNCTION_ARGUMENT
  | Some id =>
      fun w =>
        match easy w !! id with
        | None => (Undefined, w)
        | Some e =>
            let t := net (options e) in
            (accepted <- deliver (options e) (events t);;
             on_easy h (fun e => mkEasy (options e) (final_code t));;
             ret (if accepted : bool then result t else CURLE_WRITE_ERROR)) w
        end
  end.

(** [curl_easy_getinfo(h, CURLINFO_RESPONSE_CODE, &code)]; [code] keeps its
    value when the engine rejects the handle. *)
Definition curl_easy_getinfo_response_code (h : CURLp) (code : Z) : M Z :=
  fun w =>
    match h with
    | None => (Return code, w)
    | Some id =>
        match easy w !! id with
        | Some e => (Return (response_code e), w)
        | None => (Undefined, w)
        end
    end.

(** ** [class HttpClient] ([http_client.cpp]) *)

(** [static_cast<long>(n)] for a [size_t] where [long] has 64 bits (LP64):
    the value modulo [2^64], read as a signed number. *)
Definition to_long (n : Z) : Z :=
  let m := (n mod 2 ^ 64)%Z in
  if (m <? 2 ^ 63)%Z then m else (m - 2 ^ 64)%Z.

Definition LONG_MAX : Z := (2 ^ 63 - 1)%Z.

(** The special member functions the class declares (lines 43-47 of the
    header). *)
Inductive special_member :=
| copy_constructor
| copy_assignment
| move_constructor
| move_assignment.

Inductive declaration :=
| deleted
| user_provided.

Definition HttpClient_declares (m : special_member) : declaration :=
  match m with
  | copy_constructor => deleted
  | copy_assignment => deleted
  | move_constructor => user_provided
  | move_assignment => user_provided
  end.

(** [std::call_once]: the flag fires only when the callable returns; when it
    throws, the exception reaches the caller and a later call tries again. *)
Definition global_init_once (rc : Z) : M unit :=
  fun w =>
    if g_curl_once w then (Return tt, w)
    else if negb (rc =? 0)%Z then (Throw (HttpError "curl_global_init failed"), w)
    else (Return tt,
          {| g_curl_once := true; next_easy := next_easy w; easy := easy w;
             cleaned := cleaned w; heap := heap w |}).

Definition apply_common_options (this : addr) : M unit :=
  self <- deref this;;
  let h := h_ self in
  let opt := opt_ self in
  curl_easy_reset h;;
  curl_easy_setopt h (CURLOPT_WRITEFUNCTION cb_write_body);;
  curl_easy_setopt h (CURLOPT_WRITEDATA this);;
  curl_easy_setopt h (CURLOPT_HEADERFUNCTION cb_write_header);;
  curl_easy_setopt h (CURLOPT_HEADERDATA this);;
  curl_easy_setopt h (CURLOPT_TIMEOUT_MS (timeout_ms opt));;
  curl_easy_setopt h (CURLOPT_FOLLOWLOCATION (if follow_redirects opt then 1 else 0)%Z);;
  match user_agent opt with
  | Some ua =>
      if negb (StdString.empty ua)
      then curl_easy_setopt h (CURLOPT_USERAGENT ua)
      else ret tt
  | None => ret tt
  end;;
  curl_easy_setopt h (CURLOPT_SSL_VERIFYPEER (if verify_peer opt then 1 else 0)%Z);;
  curl_easy_setopt h (CURLOPT_SSL_VERIFYHOST (if verify_host opt then 2 else 0)%Z).

(** Storage for the object under construction, with its default member
    initialisers. *)
Definition emplace (this : addr) (c : HttpClient) : M unit :=
  fun w => (Return tt, with_heap w (<[this := c]> (heap w))).

(** The end of an object's lifetime. *)
Definition discard (this : addr) : M unit :=
  fun w => (Return tt, with_heap w (delete this (heap w))).

(** [HttpClient::HttpClient(Options opt)].  When the body throws, the
    object never comes to exist: its members are destroyed and the
    destructor does not run. *)
Definition HttpClient_ctor (this : addr) (opt : Options) (env : Env) : M unit :=
  fun w =>
    match (emplace this (mkHttpClient None opt "" []);;
           global_init_once (global_init_rc env);;
           h <- curl_easy_init (easy_init_ok env);;
           update this (set_h h);;
           match h with
           | None => throw (HttpError "curl_easy_init failed")
           | Some _ => apply_common_options this
           end) w with
    | (Throw e, w') => (Throw e, with_heap w' (delete this (heap w')))
    | r => r
    end.

(** [HttpClient::HttpClient()] *)
Definition HttpClient_ctor_default (this : addr) (env : Env) : M unit :=
  HttpClient_ctor this Options_default env.

(** [HttpClient::~HttpClient()] *)
Definition HttpClient_dtor (this : addr) : M unit :=
  self <- deref this;;
  match h_ self with
  | Some id => curl_easy_cleanup id
  | None => ret tt
  end;;
  discard this.

(** [HttpClient::HttpClient(HttpClient&& other)] *)
Definition HttpClient_move_ctor (this other : addr) : M unit :=
  o <- deref other;;
  emplace this (mkHttpClient (h_ o) (opt_ o) "" []);;
  update other (set_h None).

(** [HttpClient::operator=(HttpClient&& other)] *)
Definition HttpClient_move_assign (this other : addr) : M unit :=
  if decide (this <> other) then
    self <- deref this;;
    match h_ self with
    | Some id => curl_easy_cleanup id
    | None => ret tt
    end;;
    o <- deref other;;
    update this (set_h (h_ o));;
    update this (set_opt (opt_ o));;
    update other (set_h None)
  else ret tt.


(** The loop [for (auto& [k,v] : headers) sl.add(k + ": " + v)]. *)
Definition header_slist (headers : list (string * string)) : Slist :=
  fold_left (fun sl kv => Slist_add sl (fst kv ++ ": " ++ snd kv)) headers [].

Definition attach_headers (h : CURLp) (sl : Slist) : M unit :=
  match sl with
  | [] => ret tt
  | _ :: _ => curl_easy_setopt h (CURLOPT_HTTPHEADER sl)
  end.

Section Requests.

(** [curl_easy_strerror]: the engine's diagnostic text for a result code. *)
Variable curl_easy_strerror : Z -> string.

Definition perform_with_headers_and_body (this : addr) (net : Network) : M Response :=
  update this (set_body_acc "");;
  update this (set_hdr_acc []);;
  self <- deref this;;
  res <- curl_easy_perform (h_ self) net;;
  if negb (res =? CURLE_OK)%Z then
    throw (HttpError ("curl_easy_perform failed: " ++ curl_easy_strerror res))
  else
    code <- curl_easy_getinfo_response_code (h_ self) 0%Z;;
    self <- deref this;;
    let r := {| status := code; body := body_acc_ self; headers := hdr_acc_ self |} in
    (* [std::move]: the accumulators give their contents away and are left empty *)
    update this (set_body_acc "");;
    update this (set_hdr_acc []);;
    ret r.

Definition get (this : addr) (url : string) (headers : list (string * string))
           (net : Network) : M Response :=
  apply_common_options this;;
  self <- deref this;;
  curl_easy_setopt (h_ self) (CURLOPT_HTTPGET 1%Z);;
  curl_easy_setopt (h_ self) (CURLOPT_URL url);;
  attach_headers (h_ self) (header_slist headers);;
  perform_with_headers_and_body this net.

Definition post (this : addr) (url : string) (data : string)
           (headers : list (string * string)) (net : Network) : M Response :=
  apply_common_options this;;
  self <- deref this;;
  curl_easy_setopt (h_ self) (CURLOPT_POST 1%Z);;
  curl_easy_setopt (h_ self) (CURLOPT_URL url);;
  curl_easy_setopt (h_ self) (CURLOPT_POSTFIELDS data);;
  curl_easy_setopt (h_ self) (CURLOPT_POSTFIELDSIZE (to_long (Z.of_nat (String.length data))));;
  attach_headers (h_ self) (header_slist headers);;
  perform_with_headers_and_body this net.

End Requests.

(** ** Vocabulary of the specification *)

(** A request of the public interface, and the call that issues it. *)
Inductive request :=
| GET (url : string) (headers : list (string * string))
| POST (url : string) (data : string) (headers : list (string * string)).

Definition send (strerror : Z -> string) (this : addr) (r : request)
           (net : Network) : M Response :=
  match r with
  | GET url headers => get strerror this url headers net
  | POST url data headers => post strerror this url data headers net
  end.

(** The baseline option set, as the specification lists it. *)
Definition baseline_options (this : addr) (opt : Options) : list curlopt :=
  [ CURLOPT_WRITEFUNCTION cb_write_body;
    CURLOPT_WRITEDATA this;
    CURLOPT_HEADERFUNCTION cb_write_header;
    CURLOPT_HEADERDATA this;
    CURLOPT_TIMEOUT_MS (timeout_ms opt);
    CURLOPT_FOLLOWLOCATION (if follow_redirects opt then 1 else 0)%Z ]
  ++ match user_agent opt with
     | Some EmptyString => []
     | Some ua => [CURLOPT_USERAGENT ua]
     | None => []
     end
  ++ [ CURLOPT_SSL_VERIFYPEER (if verify_peer opt then 1 else 0)%Z;
       CURLOPT_SSL_VERIFYHOST (if verify_host opt then 2 else 0)%Z ].

(** The caller's header list as the engine receives it: one line
    ["name: value"] per pair, as a C string; attached only when there is at
    least one header. *)
Definition header_options (headers : list (string * string)) : list curlopt :=
  match headers with
  | [] => []
  | _ :: _ =>
      [CURLOPT_HTTPHEADER (map (fun kv => c_str (fst kv ++ ": " ++ snd kv)) headers)]
  end.

(** The options a request adds to the baseline. *)
Definition method_options (r : request) : list curlopt :=
  match r with
  | GET url headers =>
      [CURLOPT_HTTPGET 1%Z; CURLOPT_URL url] ++ header_options headers
  | POST url data headers =>
      [CURLOPT_POST 1%Z; CURLOPT_URL url; CURLOPT_POSTFIELDS data;
       CURLOPT_POSTFIELDSIZE (to_long (Z.of_nat (String.length data)))]
      ++ header_options headers
  end.

Definition request_options (this : addr) (opt : Options) (r : request) : list curlopt :=
  baseline_options this opt ++ method_options r.

(** The two callback streams of a transfer. *)
Definition header_lines (evs : list event) : list string :=
  flat_map (fun ev => match ev with HeaderData l => [l] | BodyData _ => [] end) evs.

Definition body_chunks (evs : list event) : list string :=
  flat_map (fun ev => match ev with BodyData d => [d] | HeaderData _ => [] end) evs.

(** Byte-for-byte concatenation, in order. *)
Definition concat_bytes (chunks : list string) : string :=
  fold_right String.append EmptyString chunks.

(** A status line begins with the protocol/version token. *)
Definition is_status_line (line : string) : bool := String.prefix "HTTP/" line.

(** The section terminator: nothing at all, or the bare line ending. *)
Definition is_blank_line (line : string) : bool :=
  StdString.empty line || String.eqb line CRLF.

(** The text of a line: what precedes its first line ending. *)
Definition line_text (line : string) : string :=
  StdString.substr 0 (StdString.find CRLF line) line.

(** The pairs parsed from a run of lines: one per non-blank line. *)
Definition parsed_pairs (lines : list string) : list (string * string) :=
  map (fun l => split_header_line (line_text l))
      (List.filter (fun l => negb (is_blank_line l)) lines).

(** The lines received after the last status line; all of them when no
    status line was received. *)
Fixpoint final_section (lines : list string) : list string :=
  match lines with
  | [] => []
  | l :: rest =>
      if existsb is_status_line rest then final_section rest
      else if is_status_line l then rest
      else l :: rest
  end.

Definition is_blank_char (c : ascii) : bool := Ascii.eqb c SPACE || Ascii.eqb c TAB.

Fixpoint all_blank (s : string) : bool :=
  match s with
  | EmptyString => true
  | String c s' => is_blank_char c && all_blank s'
  end.

Definition starts_blank (s : string) : bool :=
  match s with
  | EmptyString => false
  | String c _ => is_blank_char c
  end.

(** The class invariant of a session that was constructed and not moved
    from: the object exists, its handle is not null and is live. *)
Definition live (w : World) (this : addr) (id : nat) (c : HttpClient) (e : Easy) : Prop :=
  heap w !! this = Some c /\ h_ c = Some id /\ easy w !! id = Some e.

(** The world [w] with object [c] at [this] and handle state [e] at [id]. *)
Definition put (w : World) (this : addr) (c : HttpClient) (id : nat) (e : Easy) : World :=
  {| g_curl_once := g_curl_once w; next_easy := next_easy w;
     easy := <[id := e]> (easy w);
     cleaned := cleaned w;
     heap := <[this := c]> (heap w) |}.

(** What one callback invocation does to the object it is bound to. *)
Definition receive (c : HttpClient) (ev : event) : HttpClient :=
  match ev with
  | BodyData d => set_body_acc (body_acc_ c ++ d) c
  | HeaderData l => header_line_received l c
  end.

(** An object whose accumulators are empty. *)
Definition cleared (c : HttpClient) : HttpClient :=
  set_hdr_acc [] (set_body_acc "" c).

(** What the header accumulator holds after a run of lines, starting from
    [acc]. *)
Definition headers_after (lines : list string) (acc : list (string * string))
  : list (string * string) :=
  if existsb is_status_line lines then parsed_pairs (final_section lines)
  else acc ++ parsed_pairs lines.

(** The callbacks of a handle are bound to the object at [this]. *)
Definition bound (this : addr) (opts : list curlopt) : Prop :=
  registered sel_writefunction opts = Some cb_write_body
  /\ registered sel_writedata opts = Some this
  /\ registered sel_headerfunction opts = Some cb_write_header
  /\ registered sel_headerdata opts = Some this.

(** The response a successful transfer must yield. *)
Definition response_of (t : Transfer) : Response :=
  {| status := final_code t;
     body := concat_bytes (body_chunks (events t));
     headers := parsed_pairs (final_section (header_lines (events t))) |}.

(** The object at the end of a request that received transfer [t]: its
    accumulators hold what the callbacks collected, unless they were moved
    into the response. *)
Definition after_transfer (c : HttpClient) (t : Transfer) : HttpClient :=
  let c' := fold_left receive (events t) (cleared c) in
  if (result t =? CURLE_OK)%Z then cleared c' else c'.

(** How a request on a live session must end. *)
Definition outcome_of (strerror : Z -> string) (t : Transfer) : outcome Response :=
  if (result t =? CURLE_OK)%Z then Return (response_of t)
  else Throw (HttpError ("curl_easy_perform failed: " ++ strerror (result t))).

(** The exception classes in play: [HttpError] derives from
    [std::runtime_error], which derives from [std::exception]. *)
Inductive exn_class :=
| std_exception
| std_runtime_error
| net_HttpError.

(** The dynamic class of an exception object. *)
Definition class_of (e : exn) : exn_class :=
  match e with HttpError _ => net_HttpError end.

Definition derives_from (c base : exn_class) : bool :=
  match c, base with
  | _, std_exception => true
  | std_runtime_error, std_runtime_error => true
  | net_HttpError, std_runtime_error => true
  | net_HttpError, net_HttpError => true
  | _, _ => false
  end.

(** [catch (const T&)] selects on the class of the exception and on nothing
    else. *)
Definition caught_by (handler : exn_class) (e : exn) : bool :=
  derives_from (class_of e) handler.

Definition sel_postfields (o : curlopt) : option string :=
  match o with CURLOPT_POSTFIELDS d => Some d | _ => None end.
Definition sel_postfieldsize (o : curlopt) : option Z :=
  match o with CURLOPT_POSTFIELDSIZE n => Some n | _ => None end.

(** The world after a series of requests on one session, whatever their
    outcomes. *)
Fixpoint send_each (strerror : Z -> string) (this : addr)
         (calls : list (request * Network)) (w : World) : World :=
  match calls with
  | [] => w
  | (r, net) :: rest => send_each strerror this rest (snd (send strerror this r net w))
  end.

(** The world once [g_curl_once] has fired. *)
Definition once_fired (w : World) : World :=
  {| g_curl_once := true; next_easy := next_easy w; easy := easy w;
     cleaned := cleaned w; heap := heap w |}.

(** ** A sample session and sample transfers *)

Definition world0 : World :=
  {| g_curl_once := false; next_easy := 0; easy := ∅; cleaned := []; heap := ∅ |}.

(** A session at address 7 on handle 0 that has been used before. *)
Definition used_client : HttpClient :=
  {| h_ := Some 0; opt_ := Options_default;
     body_acc_ := "stale"; hdr_acc_ := [("Old", "1")] |}.

Definition used_easy : Easy :=
  {| options := [CURLOPT_URL "http://old.example/"]; response_code := 404 |}.

Definition session_world : World := put world0 7 used_client 0 used_easy.

Definition sample_strerror (code : Z) : string :=
  if (code =? 6)%Z then "Couldn't resolve host name" else "error".

(** A redirect followed by the final response, the body in two chunks. *)
Definition redirect_net : Network :=
  fun _ =>
    {| events :=
         [ HeaderData ("HTTP/1.1 301 Moved Permanently" ++ CRLF);
           HeaderData ("Location: /next" ++ CRLF);
           HeaderData CRLF;
           HeaderData ("HTTP/1.1 200 OK" ++ CRLF);
           HeaderData ("Content-Type:  text/plain" ++ CRLF);
           HeaderData ("Weird" ++ CRLF);
           HeaderData CRLF;
           BodyData "hel";
           BodyData "lo" ];
       result := 0;
       final_code := 200 |}.

(** A transfer that fails after part of the response arrived. *)
Definition failing_net : Network :=
  fun _ =>
    {| events := [HeaderData ("HTTP/1.1 200 OK" ++ CRLF);
                  HeaderData ("X-Partial: yes" ++ CRLF);
                  BodyData "par"];
       result := 6;
       final_code := 0 |}.

(** A body with an embedded zero byte. *)
Definition zero_body : string :=
  String "a"%char (String "000"%char (String "b"%char EmptyString)).

(** A second session, at address 8 on handle 1, next to the first. *)
Definition second_client : HttpClient :=
  {| h_ := Some 1; opt_ := Options_default; body_acc_ := ""; hdr_acc_ := [] |}.

Definition two_sessions : World :=
  put session_world 8 second_client 1 {| options := []; response_code := 0 |}.

(** An environment in which initialisation succeeds, and one in which the
    engine cannot allocate a handle. *)
Definition good_env : Env := {| global_init_rc := 0; easy_init_ok := true |}.
Definition no_handle_env : Env := {| global_init_rc := 0; easy_init_ok := false |}.

(** ** Vocabulary for the request headers and their echo *)

Definition sel_httpheader (o : curlopt) : option Slist :=
  match o with CURLOPT_HTTPHEADER sl => Some sl | _ => None end.

(** The header lines a request carries: the list attached last, none when
    no list was attached. *)
Definition request_header_lines (opts : list curlopt) : list string :=
  match registered sel_httpheader opts with
  | Some sl => sl
  | None => []
  end.

(** A collaborator that answers 200 and sends the header lines of the
    request back as the header lines of its response. *)
Definition echo_headers_net : Network :=
  fun opts =>
    {| events :=
         HeaderData ("HTTP/1.1 200 OK" ++ CRLF)
         :: map (fun h => HeaderData (h ++ CRLF)) (request_header_lines opts)
         ++ [HeaderData CRLF];
       result := 0;
       final_code := 200 |}.

(** A header pair that survives the trip through ["name: value"]: no colon
    in the name, a name that does not begin like a status line, no space or
    tab in front of the value, no zero byte and no line ending inside. *)
Definition plain_header (kv : string * string) : bool :=
  match StdString.find_char COLON (fst kv) with None => true | Some _ => false end
  && negb (String.prefix "HTTP/" (fst kv))
  && negb (starts_blank (snd kv))
  && match StdString.find_char "000"%char (fst kv ++ ": " ++ snd kv) with
     | None => true
     | Some _ => false
     end
  && match StdString.find CRLF (fst kv ++ ": " ++ snd kv) with
     | None => true
     | Some _ => false
     end.

(** The headers of a request. *)
Definition headers_of (r : request) : list (string * string) :=
  match r with
  | GET _ headers => headers
  | POST _ _ headers => headers
  end.

(** The number of bytes in a list of chunks. *)
Definition total_length (chunks : list string) : nat :=
  fold_right (fun d n => String.length d + n) 0 chunks.

(** ** The demonstration program ([main.cpp]) *)

Definition QUOTE : ascii := "034"%char.

(** The one-character string ["\n"]. *)
Definition NL : string := String LF EmptyString.

Definition quoted (s : string) : string := String QUOTE (s ++ String QUOTE EmptyString).

(** [e.what()] *)
Definition what_of (e : exn) : string :=
  match e with HttpError what => what end.

(** [std::cout << n] for a [long] and for a [size_t]: decimal digits, a
    minus sign in front of a negative number. *)
Definition show_long (n : Z) : string := NilZero.string_of_int (Z.to_int n).

Definition show_size (n : nat) : string := NilZero.string_of_uint (Nat.to_uint n).

(** The options [main] builds: the defaults with three members assigned. *)
Definition main_options : Options :=
  {| timeout_ms := 10000;
     follow_redirects := true;
     user_agent := Some "MyApp/1.0";
     verify_peer := verify_peer Options_default;
     verify_host := verify_host Options_default |}.

Definition get_url : string := "https://httpbin.org/get".
Definition get_headers : list (string * string) := [("Accept", "application/json")].

Definition post_url : string := "https://httpbin.org/post".
Definition post_headers : list (string * string) := [("Content-Type", "application/json")].

(** The raw string literal [{"name":"Lyudmila","role":"Developer"}]. *)
Definition postData : string :=
  "{" ++ quoted "name" ++ ":" ++ quoted "Lyudmila" ++ ","
  ++ quoted "role" ++ ":" ++ quoted "Developer" ++ "}".

(** The three output statements after the GET, and those after the POST. *)
Definition get_report (getResp : Response) : string :=
  "[GET] Status: " ++ show_long (status getResp) ++ NL
  ++ "[GET] Body length: " ++ show_size (String.length (body getResp)) ++ " bytes" ++ NL
  ++ "[GET] Body preview: " ++ StdString.substr 0 (Some 200) (body getResp) ++ NL ++ NL.

Definition post_report (postResp : Response) : string :=
  "[POST] Status: " ++ show_long (status postResp) ++ NL
  ++ "[POST] Body length: " ++ show_size (String.length (body postResp)) ++ " bytes" ++ NL
  ++ "[POST] Body preview: " ++ StdString.substr 0 (Some 200) (body postResp) ++ NL.

(** The two handlers of [main], tried in order; each writes one line to the
    error stream, and [main] then returns 1. *)
Definition handler_output (e : exn) : string :=
  if caught_by net_HttpError e then "HTTP Error: " ++ what_of e ++ NL
  else "Unexpected Error: " ++ what_of e ++ NL.

(** How a run of the program ends: its return value and what it wrote. *)
Record Exit := mkExit {
  exit_code : outcome Z;
  cout : string;
  cerr : string
}.

(** The end of the scope of [client], on the normal path and while an
    exception unwinds the [try] block: the destructor runs. *)
Definition leave_scope (client : addr) (x : Exit) (w : World) : Exit * World :=
  match HttpClient_dtor client w with
  | (Return _, w') => (x, w')
  | (_, w') => (mkExit Undefined (cout x) (cerr x), w')
  end.

(** [int main()]: [client] is the storage of the local object. *)
Definition main (strerror : Z -> string) (client : addr) (env : Env)
           (net_get net_post : Network) (w : World) : Exit * World :=
  match HttpClient_ctor client main_options env w with
  | (Undefined, w1) => (mkExit Undefined "" "", w1)
  | (Throw e, w1) => (mkExit (Return 1%Z) "" (handler_output e), w1)
  | (Return _, w1) =>
      match get strerror client get_url get_headers net_get w1 with
      | (Undefined, w2) => (mkExit Undefined "" "", w2)
      | (Throw e, w2) =>
          leave_scope client (mkExit (Return 1%Z) "" (handler_output e)) w2
      | (Return getResp, w2) =>
          let out := get_report getResp in
          match post strerror client post_url postData post_headers net_post w2 with
          | (Undefined, w3) => (mkExit Undefined out "", w3)
          | (Throw e, w3) =>
              leave_scope client (mkExit (Return 1%Z) out (handler_output e)) w3
          | (Return postResp, w3) =>
              leave_scope client
                (mkExit (Return 0%Z) (out ++ post_report postResp) "") w3
          end
      end
  end.

(** The options the engine sees for the two requests of [main]. *)
Definition main_get_options (client : addr) : list curlopt :=
  request_options client main_options (GET get_url get_headers).

Definition main_post_options (client : addr) : list curlopt :=
  request_options client main_options (POST post_url postData post_headers).

(** The world after a run of [main] that got its handle: the flag has
    fired, the handle allocated is released, the object is gone. *)
Definition after_run (client : addr) (w : World) : World :=
  {| g_curl_once := true; next_easy := S (next_easy w);
     easy := delete (next_easy w) (easy w);
     cleaned := cleaned w ++ [next_easy w];
     heap := delete client (heap w) |}.

(** Whether a construction in world [w] gets its handle. *)
Definition init_succeeds (env : Env) (w : World) : bool :=
  (g_curl_once w || (global_init_rc env =? 0)%Z) && easy_init_ok env.

(** ** [struct Slist] as a resource ([http_client.hpp], lines 61-71)

    The engine's string lists live in the engine's memory; an [Slist] object
    holds a pointer to one of them, or the null pointer.  A result of [None]
    stands for undefined behaviour (a dangling pointer, storage without an
    object). *)

Module OwnedSlist.

Record Mem := mkMem {
  nodes : gmap nat (list string);   (* the live lists, by identity *)
  next_node : nat;                  (* identity of the next list allocated *)
  freed : list nat;                 (* lists given to [curl_slist_free_all] *)
  objs : gmap addr (option nat)     (* the [Slist] objects: their [ptr] *)
}.

Definition with_objs (m : Mem) (o : gmap addr (option nat)) : Mem :=
  {| nodes := nodes m; next_node := next_node m; freed := freed m; objs := o |}.

(** [curl_slist_append(list, data)]: a copy of [data] goes to the end of
    the list, a null list becomes a new list; when the engine cannot
    allocate ([ok = false]) the result is the null pointer and the list is
    left as it is. *)
Definition curl_slist_append (list : option nat) (data : string) (ok : bool)
           (m : Mem) : option (option nat * Mem) :=
  if ok then
    match list with
    | None =>
        Some (Some (next_node m),
              {| nodes := <[next_node m := [data]]> (nodes m);
                 next_node := S (next_node m); freed := freed m; objs := objs m |})
    | Some l =>
        match nodes m !! l with
        | Some items =>
            Some (Some l,
                  {| nodes := <[l := items ++ [data]]> (nodes m);
                     next_node := next_node m; freed := freed m; objs := objs m |})
        | None => None
        end
    end
  else Some (None, m).

Definition curl_slist_free_all (l : nat) (m : Mem) : option Mem :=
  match nodes m !! l with
  | Some _ =>
      Some {| nodes := delete l (nodes m); next_node := next_node m;
              freed := freed m ++ [l]; objs := objs m |}
  | None => None
  end.

(** [if (ptr) curl_slist_free_all(ptr);] *)
Definition release (ptr : option nat) (m : Mem) : option Mem :=
  match ptr with
  | Some l => curl_slist_free_all l m
  | None => Some m
  end.

(** [Slist() = default], with [ptr = nullptr]. *)
Definition ctor (this : addr) (m : Mem) : option Mem :=
  Some (with_objs m (<[this := None]> (objs m))).

(** [~Slist()] *)
Definition dtor (this : addr) (m : Mem) : option Mem :=
  match objs m !! this with
  | None => None
  | Some ptr =>
      match release ptr m with
      | None => None
      | Some m' => Some (with_objs m' (delete this (objs m')))
      end
  end.

(** [Slist(Slist&& other)] *)
Definition move_ctor (this other : addr) (m : Mem) : option Mem :=
  match objs m !! other with
  | None => None
  | Some ptr => Some (with_objs m (<[other := None]> (<[this := ptr]> (objs m))))
  end.

(** [Slist& operator=(Slist&& other)] *)
Definition move_assign (this other : addr) (m : Mem) : option Mem :=
  if decide (this <> other) then
    match objs m !! this with
    | None => None
    | Some ptr =>
        match release ptr m with
        | None => None
        | Some m' =>
            match objs m' !! other with
            | None => None
            | Some optr =>
                Some (with_objs m' (<[other := None]> (<[this := optr]> (objs m'))))
            end
        end
    end
  else match objs m !! this with None => None | Some _ => Some m end.

(** [void add(const std::string& h)] *)
Definition add (this : addr) (h : string) (ok : bool) (m : Mem) : option Mem :=
  match objs m !! this with
  | None => None
  | Some ptr =>
      match curl_slist_append ptr (c_str h) ok m with
      | None => None
      | Some (ptr', m') => Some (with_objs m' (<[this := ptr']> (objs m')))
      end
  end.

(** A run of [add] calls, each with the engine's answer to it. *)
Fixpoint add_each (this : addr) (calls : list (string * bool)) (m : Mem) : option Mem :=
  match calls with
  | [] => Some m
  | (h, ok) :: rest =>
      match add this h ok m with
      | None => None
      | Some m' => add_each this rest m'
      end
  end.

End OwnedSlist.

(** Sample memories of header lists: an empty one, one with a fresh
    [Slist] at address 3, and one with two objects that hold a list each. *)
Definition slist_mem0 : OwnedSlist.Mem :=
  {| OwnedSlist.nodes := ∅; OwnedSlist.next_node := 0;
     OwnedSlist.freed := []; OwnedSlist.objs := ∅ |}.

Definition slist_mem1 : OwnedSlist.Mem :=
  {| OwnedSlist.nodes := ∅; OwnedSlist.next_node := 0;
     OwnedSlist.freed := []; OwnedSlist.objs := {[ 3 := None ]} |}.

Definition slist_mem2 : OwnedSlist.Mem :=
  {| OwnedSlist.nodes := {[ 0 := ["Accept: text/plain"]; 1 := ["X-Old: 1"] ]};
     OwnedSlist.next_node := 2;
     OwnedSlist.freed := [];
     OwnedSlist.objs := {[ 3 := Some 0; 4 := Some 1 ]} |}.

(** A header line with an embedded zero byte. *)
Definition zero_line : string :=
  "X-A: b" ++ String "000"%char "c".

(** A header value with an embedded zero byte. *)
Definition zero_value : string :=
  "b" ++ String "000"%char "c".

(** A blank line in the words of the specification, a section terminator:
    a line that holds nothing but its line ending, the two bytes CRLF or a
    bare LF, or nothing at all. *)
Definition blank_as_specified (line : string) : bool :=
  StdString.empty line
  || String.eqb line CRLF
  || String.eqb line (String LF EmptyString).

(** ** Facts about the string operations *)

Section StringFacts.

Import StdString.

Lemma skip_add (a b : nat) (s : string) : skip (a + b) s = skip b (skip a s).
Proof.
  revert s; induction a as [|a IH]; intros s; simpl; [reflexivity|].
  destruct s as [|c s]; [destruct b; reflexivity | apply IH].
Qed.

Lemma append_empty_r (s : string) : (s ++ "")%string = s.
Proof.
  induction s as [|a s IH]; [reflexivity|].
  change (String a (s ++ "") = String a s). now rewrite IH.
Qed.

Lemma append_assoc (s t u : string) : ((s ++ t) ++ u)%string = (s ++ t ++ u)%string.
Proof.
  induction s as [|a s IH]; [reflexivity|].
  change (String a ((s ++ t) ++ u) = String a (s ++ t ++ u)). now rewrite IH.
Qed.

Lemma first_n_length_app (s t : string) : first_n (String.length s) (s ++ t) = s.
Proof. induction s as [|c s IH]; simpl; [destruct t; reflexivity | now rewrite IH]. Qed.

(** [find] of a character splits the string at its first occurrence. *)
Lemma find_char_split (c : ascii) (s : string) (p : nat) :
  find_char c s = Some p ->
  s = (first_n p s ++ String c (skip (S p) s))%string
  /\ find_char c (first_n p s) = None.
Proof.
  revert p; induction s as [|a s IH]; intros p; cbn [find_char]; [discriminate|].
  destruct (Ascii.eqb a c) eqn:E.
  - intros [= <-]. apply Ascii.eqb_eq in E; subst a. now destruct s.
  - destruct (find_char c s) as [q|] eqn:F; cbn [option_map]; [|discriminate].
    intros [= <-]. destruct (IH q eq_refl) as [IH1 IH2].
    change (skip (S (S q)) (String a s)) with (skip (S q) s).
    cbn [first_n append find_char].
    rewrite E, IH2. split; [|reflexivity]. rewrite IH1 at 1. reflexivity.
Qed.

(** The loop over blanks stops after a run of spaces and tabs, in front
    of the end of the line or of some other character. *)
Lemma advance_blanks_spec (rest : string) (k : nat) :
  exists ws : string,
    all_blank ws = true
    /\ rest = (ws ++ skip (advance_blanks rest k - k) rest)%string
    /\ starts_blank (skip (advance_blanks rest k - k) rest) = false
    /\ k <= advance_blanks rest k.
Proof.
  revert k; induction rest as [|c rest IH]; intros k; simpl.
  - exists EmptyString. rewrite Nat.sub_diag. simpl. auto.
  - fold (is_blank_char c). destruct (is_blank_char c) eqn:B.
    + destruct (IH (S k)) as (ws & W1 & W2 & W3 & W4).
      exists (String c ws).
      replace (advance_blanks rest (S k) - k)
        with (S (advance_blanks rest (S k) - S k)) by lia.
      cbn [all_blank skip starts_blank]. rewrite B, W1.
      repeat split; auto; [rewrite W2 at 1; reflexivity | lia].
    + exists EmptyString. rewrite Nat.sub_diag. simpl. rewrite B. auto.
Qed.

(** The split rule of [split_header_line]. *)
Lemma split_header_line_spec (line : string) :
  (find_char COLON line = None /\ split_header_line line = (line, EmptyString))
  \/ (exists name ws value : string,
        split_header_line line = (name, value)
        /\ line = (name ++ String COLON (ws ++ value))%string
        /\ find_char COLON name = None
        /\ all_blank ws = true
        /\ starts_blank value = false).
Proof.
  unfold split_header_line.
  destruct (find_char COLON line) as [pos|] eqn:F; [right | left; auto].
  destruct (find_char_split _ _ _ F) as [S1 S2].
  destruct (advance_blanks_spec (skip (pos + 1) line) (pos + 1))
    as (ws & W1 & W2 & W3 & W4).
  set (start := advance_blanks (skip (pos + 1) line) (pos + 1)) in *.
  assert (Hs : skip start line = skip (start - (pos + 1)) (skip (pos + 1) line)).
  { rewrite <- skip_add. f_equal. lia. }
  exists (first_n pos line), ws, (skip start line).
  unfold substr; simpl. rewrite Hs. repeat split; auto.
  rewrite <- W2. replace (pos + 1) with (S pos) by lia. exact S1.
Qed.

Lemma prefix_String (a b : ascii) (s1 s2 : string) :
  String.prefix (String a s1) (String b s2)
  = if ascii_dec a b then String.prefix s1 s2 else false.
Proof. reflexivity. Qed.

Lemma prefix_empty_r (a : ascii) (s1 : string) :
  String.prefix (String a s1) EmptyString = false.
Proof. reflexivity. Qed.

Lemma prefix_empty_l (s : string) : String.prefix EmptyString s = true.
Proof. now destruct s. Qed.

Lemma prefix_CRLF (s : string) :
  String.prefix CRLF s = true <-> exists t, s = String CR (String LF t).
Proof.
  unfold CRLF. split.
  - destruct s as [|a [|b t]];
      rewrite ?prefix_String, ?prefix_empty_r; try discriminate.
    + destruct (ascii_dec CR a); rewrite ?prefix_empty_r; discriminate.
    + destruct (ascii_dec CR a); [|discriminate].
      destruct (ascii_dec LF b); [|discriminate].
      subst; intros _; now exists t.
  - intros [t ->]. rewrite !prefix_String.
    destruct (ascii_dec CR CR); [|congruence].
    destruct (ascii_dec LF LF); [|congruence].
    apply prefix_empty_l.
Qed.

(** In front of a line ending that is the first one of the buffer, the
    search finds exactly the length of the text. *)
Lemma find_CRLF_app (content : string) :
  find CRLF content = None ->
  find CRLF (content ++ CRLF) = Some (String.length content).
Proof.
  induction content as [|c content IH]; [reflexivity|].
  intros H. cbn [find] in H.
  destruct (String.prefix CRLF (String c content)) eqn:P; [discriminate|].
  destruct (find CRLF content) eqn:F; [discriminate|].
  change ((String c content ++ CRLF)%string) with (String c (content ++ CRLF)).
  cbn [find]. rewrite (IH eq_refl). simpl option_map.
  destruct (String.prefix CRLF (String c (content ++ CRLF))) eqn:Q; [|reflexivity].
  exfalso. apply prefix_CRLF in Q. destruct Q as [t Q].
  injection Q as -> Q.
  destruct content as [|b content].
  - simpl in Q. discriminate.
  - simpl in Q. injection Q as -> _.
    assert (String.prefix CRLF (String CR (String LF content)) = true)
      by (apply prefix_CRLF; eauto).
    congruence.
Qed.

(** The text of a buffer that carries at most its own line ending. *)
Lemma line_text_of (content : string) :
  find CRLF content = None ->
  line_text content = content /\ line_text (content ++ CRLF) = content.
Proof.
  intros H. unfold line_text. rewrite H, (find_CRLF_app _ H).
  unfold substr. simpl skip. split; [reflexivity | apply first_n_length_app].
Qed.

End StringFacts.

(** ** Stepping the wrapper on a live session *)

Section WorldFacts.

Context (w : World) (this : addr) (id : nat).

Lemma live_put (c : HttpClient) (e : Easy) :
  live w this id c e -> w = put w this c id e.
Proof.
  intros (Hc & _ & He). destruct w as [g n es cl hp]; unfold put; simpl in *.
  f_equal; symmetry; now apply insert_id.
Qed.

Lemma put_live (c : HttpClient) (e : Easy) :
  h_ c = Some id -> live (put w this c id e) this id c e.
Proof.
  intros Hh. unfold live, put; simpl. rewrite !lookup_insert_eq. auto.
Qed.

Lemma put_put (c c' : HttpClient) (e e' : Easy) :
  put (put w this c id e) this c' id e' = put w this c' id e'.
Proof. unfold put; simpl. now rewrite !insert_insert_eq. Qed.

Lemma bind_Return {A B} (m : M A) (k : A -> M B) (v v' : World) (a : A) :
  m v = (Return a, v') -> bind m k v = k a v'.
Proof. intros H. unfold bind. now rewrite H. Qed.

Lemma deref_put (c : HttpClient) (e : Easy) :
  deref this (put w this c id e) = (Return c, put w this c id e).
Proof. unfold deref, put; simpl. now rewrite lookup_insert_eq. Qed.

Lemma update_put (f : HttpClient -> HttpClient) (c : HttpClient) (e : Easy) :
  update this f (put w this c id e) = (Return tt, put w this (f c) id e).
Proof.
  unfold update, put, with_heap; simpl.
  now rewrite lookup_insert_eq, insert_insert_eq.
Qed.

Lemma on_easy_put (f : Easy -> Easy) (c : HttpClient) (e : Easy) :
  on_easy (Some id) f (put w this c id e) = (Return tt, put w this c id (f e)).
Proof.
  unfold on_easy, put, with_easy; simpl.
  now rewrite lookup_insert_eq, insert_insert_eq.
Qed.

Lemma setopt_put (o : curlopt) (c : HttpClient) (e : Easy) :
  curl_easy_setopt (Some id) o (put w this c id e)
  = (Return tt, put w this c id (mkEasy (options e ++ [o]) (response_code e))).
Proof. apply on_easy_put. Qed.

Lemma reset_put (c : HttpClient) (e : Easy) :
  curl_easy_reset (Some id) (put w this c id e)
  = (Return tt, put w this c id (mkEasy [] (response_code e))).
Proof. apply on_easy_put. Qed.

Lemma getinfo_put (z : Z) (c : HttpClient) (e : Easy) :
  curl_easy_getinfo_response_code (Some id) z (put w this c id e)
  = (Return (response_code e), put w this c id e).
Proof.
  unfold curl_easy_getinfo_response_code, put; simpl.
  now rewrite lookup_insert_eq.
Qed.

Lemma attach_headers_put (sl : Slist) (c : HttpClient) (e : Easy) :
  attach_headers (Some id) sl (put w this c id e)
  = (Return tt,
     put w this c id
         (mkEasy (options e ++ match sl with [] => [] | _ => [CURLOPT_HTTPHEADER sl] end)
                 (response_code e))).
Proof.
  destruct sl as [|h sl]; simpl.
  - unfold ret. rewrite app_nil_r. now destruct e.
  - apply setopt_put.
Qed.

End WorldFacts.

Ltac step :=
  erewrite bind_Return
    by first [ apply deref_put | apply update_put | apply setopt_put
             | apply reset_put | apply getinfo_put | apply attach_headers_put
             | apply on_easy_put | reflexivity ];
  cbv zeta beta.

Lemma apply_common_options_put (w : World) (this : addr) (id : nat)
      (c : HttpClient) (e : Easy) :
  h_ c = Some id ->
  apply_common_options this (put w this c id e)
  = (Return tt,
     put w this c id (mkEasy (baseline_options this (opt_ c)) (response_code e))).
Proof.
  intros Hh. unfold apply_common_options, baseline_options.
  step. rewrite Hh. do 7 step.
  destruct (user_agent (opt_ c)) as [[|a ua]|]; cbn [StdString.empty negb];
    do 2 step; rewrite setopt_put; reflexivity.
Qed.

Lemma header_slist_from (headers : list (string * string)) (acc : Slist) :
  fold_left (fun sl kv => Slist_add sl (fst kv ++ ": " ++ snd kv)) headers acc
  = acc ++ map (fun kv => c_str (fst kv ++ ": " ++ snd kv)) headers.
Proof.
  revert acc; induction headers as [|kv hs IH]; intros acc; simpl.
  - now rewrite app_nil_r.
  - rewrite IH. unfold Slist_add. now rewrite <- app_assoc.
Qed.

Lemma header_slist_map (headers : list (string * string)) :
  header_slist headers = map (fun kv => c_str (fst kv ++ ": " ++ snd kv)) headers.
Proof. unfold header_slist. now rewrite header_slist_from. Qed.

Lemma header_options_slist (headers : list (string * string)) :
  match header_slist headers with
  | [] => []
  | _ :: _ => [CURLOPT_HTTPHEADER (header_slist headers)]
  end = header_options headers.
Proof. rewrite header_slist_map. now destruct headers. Qed.

(** ** The callbacks over a whole transfer *)

Lemma header_line_received_cases (line : string) (c : HttpClient) :
  header_line_received line c
  = if is_status_line line then set_hdr_acc [] c
    else if is_blank_line line then c
    else set_hdr_acc (hdr_acc_ c ++ [split_header_line (line_text line)]) c.
Proof.
  unfold header_line_received, StdString.rfind0, is_status_line, is_blank_line.
  destruct (String.prefix "HTTP/" line).
  - now rewrite decide_True.
  - rewrite decide_False by discriminate.
    rewrite <- negb_orb.
    now destruct (StdString.empty line || String.eqb line CRLF).
Qed.

Lemma receive_keeps (evs : list event) (c : HttpClient) :
  h_ (fold_left receive evs c) = h_ c /\ opt_ (fold_left receive evs c) = opt_ c.
Proof.
  revert c; induction evs as [|ev evs IH]; intros c; simpl; [auto|].
  destruct (IH (receive c ev)) as [-> ->].
  destruct ev as [l|d]; simpl; [|auto].
  rewrite header_line_received_cases.
  destruct (is_status_line l); [auto|]. destruct (is_blank_line l); auto.
Qed.

Lemma receive_body (evs : list event) (c : HttpClient) :
  body_acc_ (fold_left receive evs c)
  = (body_acc_ c ++ concat_bytes (body_chunks evs))%string.
Proof.
  revert c; induction evs as [|ev evs IH]; intros c; simpl.
  - now rewrite append_empty_r.
  - rewrite IH. destruct ev as [l|d]; simpl.
    + rewrite header_line_received_cases.
      destruct (is_status_line l); [reflexivity|].
      destruct (is_blank_line l); reflexivity.
    + apply append_assoc.
Qed.

Lemma receive_headers (evs : list event) (c : HttpClient) :
  hdr_acc_ (fold_left receive evs c) = headers_after (header_lines evs) (hdr_acc_ c).
Proof.
  revert c; induction evs as [|ev evs IH]; intros c; simpl.
  - unfold headers_after; simpl. now rewrite app_nil_r.
  - rewrite IH. destruct ev as [l|d]; simpl; [|reflexivity].
    rewrite header_line_received_cases.
    unfold headers_after, parsed_pairs. simpl.
    destruct (is_status_line l) eqn:S; simpl.
    + destruct (existsb is_status_line (header_lines evs)); reflexivity.
    + destruct (existsb is_status_line (header_lines evs)); [reflexivity|].
      destruct (is_blank_line l); simpl; [reflexivity|].
      now rewrite <- app_assoc.
Qed.

Lemma request_options_bound (this : addr) (opt : Options) (r : request) :
  bound this (request_options this opt r).
Proof.
  unfold bound, request_options, baseline_options, method_options, header_options.
  destruct (user_agent opt) as [[|a ua]|]; destruct r as [u [|h hs]|u d [|h hs]];
    repeat split; reflexivity.
Qed.

Section Delivery.

Context (w : World) (this : addr) (id : nat).

Lemma dispatch_put (opts : list curlopt) (ev : event) (c : HttpClient) (e : Easy) :
  bound this opts ->
  dispatch opts ev (put w this c id e)
  = (Return (String.length (payload ev)), put w this (receive c ev) id e).
Proof.
  intros (B1 & B2 & B3 & B4). unfold dispatch.
  destruct ev as [l|d]; simpl.
  - rewrite B3, B4. simpl. unfold write_header_cb. step. reflexivity.
  - rewrite B1, B2. simpl. unfold write_body_cb. step. reflexivity.
Qed.

Lemma deliver_put (opts : list curlopt) (evs : list event) (c : HttpClient) (e : Easy) :
  bound this opts ->
  deliver opts evs (put w this c id e)
  = (Return true, put w this (fold_left receive evs c) id e).
Proof.
  intros B. revert c; induction evs as [|ev evs IH]; intros c; simpl.
  - reflexivity.
  - erewrite bind_Return by (apply dispatch_put; exact B).
    rewrite Nat.eqb_refl. apply IH.
Qed.

Lemma curl_easy_perform_put (net : Network) (c : HttpClient) (e : Easy) :
  bound this (options e) ->
  curl_easy_perform (Some id) net (put w this c id e)
  = (Return (result (net (options e))),
     put w this (fold_left receive (events (net (options e))) c) id
         (mkEasy (options e) (final_code (net (options e))))).
Proof.
  intros B. unfold curl_easy_perform.
  change (easy (put w this c id e)) with (<[id := e]> (easy w)).
  rewrite lookup_insert_eq.
  erewrite bind_Return by (apply deliver_put; exact B).
  step. reflexivity.
Qed.

End Delivery.

(** ** One request on a live session *)

Lemma final_section_no_status (lines : list string) :
  existsb is_status_line lines = false -> final_section lines = lines.
Proof.
  destruct lines as [|l rest]; simpl; [reflexivity|].
  intros H. apply orb_false_iff in H as [-> ->]. reflexivity.
Qed.

Lemma final_section_split (pre post : list string) (s : string) :
  is_status_line s = true ->
  existsb is_status_line post = false ->
  final_section (pre ++ s :: post) = post.
Proof.
  intros Hs Hp. induction pre as [|a pre IH]; simpl.
  - now rewrite Hp, Hs.
  - rewrite existsb_app. simpl. rewrite Hs, orb_true_r. simpl. exact IH.
Qed.

Lemma headers_after_nil (lines : list string) :
  headers_after lines [] = parsed_pairs (final_section lines).
Proof.
  unfold headers_after. destruct (existsb is_status_line lines) eqn:E; [reflexivity|].
  now rewrite final_section_no_status.
Qed.

Lemma after_transfer_keeps (c : HttpClient) (t : Transfer) :
  h_ (after_transfer c t) = h_ c /\ opt_ (after_transfer c t) = opt_ c.
Proof.
  unfold after_transfer.
  destruct (receive_keeps (events t) (cleared c)) as [H1 H2].
  destruct (result t =? CURLE_OK)%Z; simpl; rewrite ?H1, ?H2; auto.
Qed.

Section Sessions.

Variable strerror : Z -> string.

Lemma perform_put (w : World) (this : addr) (id : nat) (c : HttpClient)
      (e : Easy) (net : Network) :
  h_ c = Some id ->
  bound this (options e) ->
  perform_with_headers_and_body strerror this net (put w this c id e)
  = (outcome_of strerror (net (options e)),
     put w this (after_transfer c (net (options e))) id
         (mkEasy (options e) (final_code (net (options e))))).
Proof.
  intros Hh B. unfold perform_with_headers_and_body, outcome_of, after_transfer.
  do 3 step. fold (cleared c).
  change (h_ (cleared c)) with (h_ c). rewrite Hh.
  erewrite bind_Return by (apply curl_easy_perform_put; exact B).
  set (t := net (options e)).
  destruct (result t =? CURLE_OK)%Z; cbv [negb].
  - do 4 step. unfold ret, response_of, cleared. do 3 f_equal.
    + now rewrite receive_body.
    + rewrite receive_headers. apply headers_after_nil.
  - reflexivity.
Qed.

Lemma send_put (w : World) (this : addr) (id : nat) (c : HttpClient)
      (e : Easy) (r : request) (net : Network) :
  h_ c = Some id ->
  send strerror this r net (put w this c id e)
  = (outcome_of strerror (net (request_options this (opt_ c) r)),
     put w this (after_transfer c (net (request_options this (opt_ c) r))) id
         (mkEasy (request_options this (opt_ c) r)
                 (final_code (net (request_options this (opt_ c) r))))).
Proof.
  intros Hh.
  assert (P := fun e0 => perform_put w this id c
                 (mkEasy (request_options this (opt_ c) r) e0) net Hh
                 (request_options_bound this (opt_ c) r)).
  cbn [options] in P.
  destruct r as [url hs | url data hs]; unfold send, get, post.
  - erewrite bind_Return by (apply apply_common_options_put; exact Hh).
    step. rewrite Hh. do 3 step. cbn [options response_code].
    rewrite header_options_slist, <- !app_assoc. apply P.
  - erewrite bind_Return by (apply apply_common_options_put; exact Hh).
    step. rewrite Hh. do 5 step. cbn [options response_code].
    rewrite header_options_slist, <- !app_assoc. apply P.
Qed.

(** The master equation: on a live session a request consults the network
    with the baseline and method options, returns or throws as the
    engine's result code says, and leaves the session live. *)
Lemma send_live (w : World) (this : addr) (id : nat) (c : HttpClient)
      (e : Easy) (r : request) (net : Network) :
  live w this id c e ->
  send strerror this r net w
  = (outcome_of strerror (net (request_options this (opt_ c) r)),
     put w this (after_transfer c (net (request_options this (opt_ c) r))) id
         (mkEasy (request_options this (opt_ c) r)
                 (final_code (net (request_options this (opt_ c) r))))).
Proof.
  intros L. pose proof (send_put w this id c e r net (proj1 (proj2 L))) as P.
  rewrite <- (live_put w this id c e L) in P. exact P.
Qed.

End Sessions.

(** ** The accumulation protocol *)

Section Accumulation.

Variable strerror : Z -> string.

(** C1: the headers of the returned response are exactly the pairs parsed
    from the lines received after the last status line, in the order
    received; a status line empties the accumulator, so nothing of an
    earlier section survives. *)
Theorem headers_from_final_section (w : World) (this : addr) (id : nat)
        (c : HttpClient) (e : Easy) (r : request) (net : Network) :
  live w this id c e ->
  result (net (request_options this (opt_ c) r)) = CURLE_OK ->
  let lines := header_lines (events (net (request_options this (opt_ c) r))) in
  exists (resp : Response) (w' : World),
    send strerror this r net w = (Return resp, w')
    /\ headers resp = parsed_pairs (final_section lines)
    /\ (forall (pre post : list string) (s : string),
          lines = pre ++ s :: post ->
          is_status_line s = true ->
          existsb is_status_line post = false ->
          headers resp = parsed_pairs post)
    /\ (existsb is_status_line lines = false -> headers resp = parsed_pairs lines)
    /\ (forall (c0 : HttpClient) (s : string),
          is_status_line s = true ->
          hdr_acc_ (header_line_received s c0) = []).
Proof.
  intros L R lines. rewrite (send_live strerror _ _ _ _ _ r net L).
  unfold outcome_of. rewrite R. cbn [Z.eqb CURLE_OK].
  eexists _, _. split; [reflexivity|]. cbn [response_of headers].
  fold lines. repeat split.
  - intros pre post s E Hs Hp. rewrite E. now rewrite final_section_split.
  - intros H. now rewrite final_section_no_status.
  - intros c0 s Hs. rewrite header_line_received_cases, Hs. reflexivity.
Qed.

(** C5: the body of the returned response is the concatenation, in
    invocation order, of the chunks given to the body callback, each
    accepted whole and appended unchanged. *)
Theorem body_is_concatenation (w : World) (this : addr) (id : nat)
        (c : HttpClient) (e : Easy) (r : request) (net : Network) :
  live w this id c e ->
  result (net (request_options this (opt_ c) r)) = CURLE_OK ->
  exists (resp : Response) (w' : World),
    send strerror this r net w = (Return resp, w')
    /\ body resp
       = concat_bytes (body_chunks (events (net (request_options this (opt_ c) r))))
    /\ (forall (c0 : HttpClient) (chunk : string) (v : World),
          heap v !! this = Some c0 ->
          exists v', write_body_cb chunk this v = (Return (String.length chunk), v')
                     /\ heap v' !! this
                        = Some (set_body_acc (body_acc_ c0 ++ chunk) c0)).
Proof.
  intros L R. rewrite (send_live strerror _ _ _ _ _ r net L).
  unfold outcome_of. rewrite R. cbn [Z.eqb CURLE_OK].
  eexists _, _. split; [reflexivity|]. split; [reflexivity|].
  intros c0 chunk v Hv. unfold write_body_cb, bind, update, ret. rewrite Hv.
  eexists. split; [reflexivity|]. simpl. apply lookup_insert_eq.
Qed.

(** C3: when the engine reports failure the call throws the wrapper's
    error with the engine's diagnostic text and returns no response, and
    the session stays usable; when it reports success the call returns a
    response. *)
Theorem failure_raises_success_returns (w : World) (this : addr) (id : nat)
        (c : HttpClient) (e : Easy) (r : request) (net : Network) :
  live w this id c e ->
  let t := net (request_options this (opt_ c) r) in
  exists (o : outcome Response) (w' : World) (c' : HttpClient) (e' : Easy),
    send strerror this r net w = (o, w')
    /\ (result t <> CURLE_OK ->
        o = Throw (HttpError ("curl_easy_perform failed: " ++ strerror (result t))))
    /\ (result t = CURLE_OK -> o = Return (response_of t))
    /\ live w' this id c' e'
    /\ opt_ c' = opt_ c
    /\ (forall (r2 : request) (net2 : Network),
          result (net2 (request_options this (opt_ c) r2)) = CURLE_OK ->
          exists w2 : World,
            send strerror this r2 net2 w'
            = (Return (response_of (net2 (request_options this (opt_ c) r2))), w2)).
Proof.
  intros L t. rewrite (send_live strerror _ _ _ _ _ r net L). fold t.
  destruct (after_transfer_keeps c t) as [K1 K2].
  assert (L' : live (put w this (after_transfer c t) id
                         (mkEasy (request_options this (opt_ c) r) (final_code t)))
                    this id (after_transfer c t)
                    (mkEasy (request_options this (opt_ c) r) (final_code t))).
  { apply put_live. rewrite K1. apply L. }
  eexists _, _, _, _. split; [reflexivity|]. unfold outcome_of.
  split; [|split; [|split; [exact L'|split; [exact K2|]]]].
  - intros N. apply Z.eqb_neq in N. now rewrite N.
  - intros E. apply Z.eqb_eq in E. now rewrite E.
  - intros r2 net2 R2. rewrite (send_live strerror _ _ _ _ _ r2 net2 L').
    rewrite K2. unfold outcome_of. apply Z.eqb_eq in R2. rewrite R2.
    eexists. reflexivity.
Qed.

End Accumulation.

(** ** The request lifecycle *)

Lemma to_long_small (n : Z) : (0 <= n <= LONG_MAX)%Z -> to_long n = n.
Proof.
  unfold to_long, LONG_MAX. intros H.
  rewrite Z.mod_small by lia.
  destruct (n <? 2 ^ 63)%Z eqn:E; [reflexivity|].
  apply Z.ltb_ge in E. lia.
Qed.

Lemma after_transfer_success (c : HttpClient) (t : Transfer) :
  result t = CURLE_OK ->
  body_acc_ (after_transfer c t) = EmptyString /\ hdr_acc_ (after_transfer c t) = [].
Proof.
  intros H. apply Z.eqb_eq in H. unfold after_transfer. rewrite H. auto.
Qed.

Lemma after_transfer_failure (c : HttpClient) (t : Transfer) :
  result t <> CURLE_OK ->
  body_acc_ (after_transfer c t) = concat_bytes (body_chunks (events t))
  /\ hdr_acc_ (after_transfer c t)
     = parsed_pairs (final_section (header_lines (events t))).
Proof.
  intros H. apply Z.eqb_neq in H. unfold after_transfer. rewrite H.
  rewrite receive_body, receive_headers. split; [reflexivity | apply headers_after_nil].
Qed.

Lemma useragent_in_request_options (this : addr) (opt : Options) (r : request)
      (ua : string) :
  In (CURLOPT_USERAGENT ua) (request_options this opt r)
  <-> user_agent opt = Some ua /\ ua <> EmptyString.
Proof.
  unfold request_options, baseline_options, method_options, header_options.
  rewrite !in_app_iff.
  destruct (user_agent opt) as [[|a s]|]; destruct r as [u [|h hs]|u d [|h hs]];
    simpl; split; intros H;
    repeat match goal with
           | H : _ \/ _ |- _ => destruct H
           | H : _ /\ _ |- _ => destruct H
           | H : False |- _ => destruct H
           end;
    try discriminate; try congruence;
    try match goal with
        | H : CURLOPT_USERAGENT _ = CURLOPT_USERAGENT _ |- _ =>
            injection H as <-; split; [reflexivity | discriminate]
        end.
  all: match goal with
       | H : Some _ = Some _ |- _ => injection H as <-
       end; auto 10.
Qed.

Section Lifecycle.

Variable strerror : Z -> string.

(** C2: every request starts from empty accumulators and a successful one
    leaves them empty again, so what a call returns, and what it leaves
    behind, comes from its own transfer only. *)
Theorem no_residue_between_calls (w : World) (this : addr) (id : nat)
        (c : HttpClient) (e : Easy) (r1 r2 : request) (net1 net2 : Network) :
  live w this id c e ->
  let t1 := net1 (request_options this (opt_ c) r1) in
  let t2 := net2 (request_options this (opt_ c) r2) in
  exists (o1 : outcome Response) (w1 : World) (c1 : HttpClient) (e1 : Easy),
    send strerror this r1 net1 w = (o1, w1)
    /\ live w1 this id c1 e1
    /\ (result t1 = CURLE_OK ->
        o1 = Return (response_of t1) /\ body_acc_ c1 = EmptyString /\ hdr_acc_ c1 = [])
    /\ (result t1 <> CURLE_OK ->
        body_acc_ c1 = concat_bytes (body_chunks (events t1))
        /\ hdr_acc_ c1 = parsed_pairs (final_section (header_lines (events t1))))
    /\ (result t2 = CURLE_OK ->
        exists (w2 : World) (c2 : HttpClient) (e2 : Easy),
          send strerror this r2 net2 w1 = (Return (response_of t2), w2)
          /\ live w2 this id c2 e2
          /\ body_acc_ c2 = EmptyString /\ hdr_acc_ c2 = []).
Proof.
  intros L t1 t2. rewrite (send_live strerror _ _ _ _ _ r1 net1 L). fold t1.
  destruct (after_transfer_keeps c t1) as [K1 K2].
  assert (L1 : live (put w this (after_transfer c t1) id
                         (mkEasy (request_options this (opt_ c) r1) (final_code t1)))
                    this id (after_transfer c t1)
                    (mkEasy (request_options this (opt_ c) r1) (final_code t1))).
  { apply put_live. rewrite K1. apply L. }
  eexists _, _, _, _. split; [reflexivity|]. split; [exact L1|].
  split; [|split].
  - intros H. destruct (after_transfer_success c t1 H) as [A1 A2].
    unfold outcome_of. apply Z.eqb_eq in H. rewrite H. auto.
  - intros H. apply after_transfer_failure, H.
  - intros R2. rewrite (send_live strerror _ _ _ _ _ r2 net2 L1).
    rewrite K2. fold t2.
    destruct (after_transfer_keeps (after_transfer c t1) t2) as [J1 _].
    destruct (after_transfer_success (after_transfer c t1) t2 R2) as [A1 A2].
    eexists _, _, _. split; [|split; [|split; [exact A1 | exact A2]]].
    + unfold outcome_of. apply Z.eqb_eq in R2. rewrite R2. reflexivity.
    + apply put_live. rewrite J1, K1. apply L.
Qed.

(** C8: before every request the handle is reset and the full baseline is
    applied: whatever the handle held before, the engine is consulted
    with the baseline options of this session followed by the options of
    the method, and the user agent is among them exactly when it is
    present and not empty. *)
Theorem baseline_before_every_request (w : World) (this : addr) (id : nat)
        (c : HttpClient) (e : Easy) (r : request) (net : Network) :
  live w this id c e ->
  exists (o : outcome Response) (w' : World) (c' : HttpClient) (e' : Easy),
    send strerror this r net w = (o, w')
    /\ live w' this id c' e'
    /\ opt_ c' = opt_ c
    /\ options e' = baseline_options this (opt_ c) ++ method_options r
    /\ send strerror this r net w
       = send strerror this r
              (fun _ => net (baseline_options this (opt_ c) ++ method_options r)) w
    /\ bound this (options e')
    /\ (forall ua : string,
          In (CURLOPT_USERAGENT ua) (options e')
          <-> user_agent (opt_ c) = Some ua /\ ua <> EmptyString).
Proof.
  intros L.
  pose proof (send_live strerror _ _ _ _ _ r net L) as S1.
  pose proof (send_live strerror _ _ _ _ _ r
                (fun _ => net (baseline_options this (opt_ c) ++ method_options r))
                L) as S2.
  cbv beta in S2. fold (request_options this (opt_ c) r) in S2 |- *.
  rewrite S1, S2.
  set (t := net (request_options this (opt_ c) r)).
  destruct (after_transfer_keeps c t) as [K1 K2].
  eexists _, _, _, _. split; [reflexivity|].
  split; [apply put_live; rewrite K1; apply L|].
  split; [exact K2|]. split; [reflexivity|]. split; [reflexivity|].
  split; [apply request_options_bound|].
  intros ua. apply useragent_in_request_options.
Qed.

(** C6: [post] gives the engine the body bytes together with their full
    count as an explicit length, zero bytes included, so the length is
    not left to a terminator search. *)
Theorem post_gives_explicit_length (w : World) (this : addr) (id : nat)
        (c : HttpClient) (e : Easy) (url data : string)
        (hdrs : list (string * string)) (net : Network) :
  live w this id c e ->
  (Z.of_nat (String.length data) <= LONG_MAX)%Z ->
  let opts :=
    baseline_options this (opt_ c)
    ++ [CURLOPT_POST 1%Z; CURLOPT_URL url; CURLOPT_POSTFIELDS data;
        CURLOPT_POSTFIELDSIZE (Z.of_nat (String.length data))]
    ++ header_options hdrs in
  exists (o : outcome Response) (w' : World) (c' : HttpClient) (e' : Easy),
    post strerror this url data hdrs net w = (o, w')
    /\ live w' this id c' e'
    /\ options e' = opts
    /\ post strerror this url data hdrs net w
       = post strerror this url data hdrs (fun _ => net opts) w
    /\ registered sel_postfields opts = Some data
    /\ registered sel_postfieldsize opts = Some (Z.of_nat (String.length data))
    /\ Z.of_nat (String.length data) <> (-1)%Z.
Proof.
  intros L Hlen opts.
  assert (E : request_options this (opt_ c) (POST url data hdrs) = opts).
  { unfold request_options, method_options, opts.
    rewrite to_long_small by lia. reflexivity. }
  pose proof (send_live strerror _ _ _ _ _ (POST url data hdrs) net L) as S1.
  pose proof (send_live strerror _ _ _ _ _ (POST url data hdrs)
                        (fun _ => net opts) L) as S2.
  cbn [send] in S1, S2. rewrite E in S1, S2. rewrite S1, S2.
  destruct (after_transfer_keeps c (net opts)) as [K1 K2].
  eexists _, _, _, _. split; [reflexivity|].
  split; [apply put_live; rewrite K1; apply L|].
  split; [reflexivity|]. split; [reflexivity|].
  unfold opts, baseline_options, header_options.
  destruct (user_agent (opt_ c)) as [[|a s]|]; destruct hdrs as [|h hs];
    repeat split; try reflexivity; lia.
Qed.

End Lifecycle.

(** ** Construction *)

Lemma global_init_once_ok (rc : Z) (v : World) :
  g_curl_once v = true \/ rc = 0%Z ->
  global_init_once rc v = (Return tt, once_fired v).
Proof.
  unfold global_init_once, once_fired. intros [H | ->].
  - rewrite H. destruct v; simpl in *; now subst.
  - destruct (g_curl_once v) eqn:G; [|reflexivity].
    destruct v; simpl in *; now subst.
Qed.

Lemma global_init_once_fails (rc : Z) (v : World) :
  g_curl_once v = false -> rc <> 0%Z ->
  global_init_once rc v = (Throw (HttpError "curl_global_init failed"), v).
Proof.
  unfold global_init_once. intros -> N. apply Z.eqb_neq in N. now rewrite N.
Qed.

Lemma deref_at (p : addr) (c : HttpClient) (v : World) :
  heap v !! p = Some c -> deref p v = (Return c, v).
Proof. unfold deref. now intros ->. Qed.

Lemma update_at (p : addr) (f : HttpClient -> HttpClient) (c : HttpClient) (v : World) :
  heap v !! p = Some c ->
  update p f v = (Return tt, with_heap v (<[p := f c]> (heap v))).
Proof. unfold update. now intros ->. Qed.

Lemma cleanup_at (id : nat) (e : Easy) (v : World) :
  easy v !! id = Some e ->
  curl_easy_cleanup id v
  = (Return tt,
     {| g_curl_once := g_curl_once v; next_easy := next_easy v;
        easy := delete id (easy v); cleaned := cleaned v ++ [id];
        heap := heap v |}).
Proof. unfold curl_easy_cleanup. now intros ->. Qed.

Section Construction.

Context (this : addr) (opt : Options) (env : Env) (w : World).

Lemma ctor_global_init_fails :
  g_curl_once w = false ->
  global_init_rc env <> 0%Z ->
  HttpClient_ctor this opt env w
  = (Throw (HttpError "curl_global_init failed"),
     with_heap w (delete this (heap w))).
Proof.
  intros G N. unfold HttpClient_ctor.
  erewrite bind_Return by (unfold emplace; reflexivity).
  unfold bind at 1. rewrite global_init_once_fails by assumption.
  unfold with_heap; cbn [heap g_curl_once next_easy easy cleaned].
  now rewrite delete_insert_eq.
Qed.

Lemma ctor_easy_init_fails :
  g_curl_once w = true \/ global_init_rc env = 0%Z ->
  easy_init_ok env = false ->
  HttpClient_ctor this opt env w
  = (Throw (HttpError "curl_easy_init failed"),
     once_fired (with_heap w (delete this (heap w)))).
Proof.
  intros G K. unfold HttpClient_ctor.
  erewrite bind_Return by (unfold emplace; reflexivity).
  erewrite bind_Return by (apply global_init_once_ok; exact G).
  erewrite bind_Return by (unfold curl_easy_init; rewrite K; reflexivity).
  erewrite bind_Return by (apply update_at; apply lookup_insert_eq).
  unfold throw, once_fired, with_heap;
    cbn [heap g_curl_once next_easy easy cleaned].
  now rewrite insert_insert_eq, delete_insert_eq.
Qed.

Lemma ctor_succeeds :
  g_curl_once w = true \/ global_init_rc env = 0%Z ->
  easy_init_ok env = true ->
  HttpClient_ctor this opt env w
  = (Return tt,
     put {| g_curl_once := true; next_easy := S (next_easy w); easy := easy w;
            cleaned := cleaned w; heap := heap w |}
         this (mkHttpClient (Some (next_easy w)) opt "" [])
         (next_easy w) (mkEasy (baseline_options this opt) 0)).
Proof.
  intros G K. unfold HttpClient_ctor.
  erewrite bind_Return by (unfold emplace; reflexivity).
  erewrite bind_Return by (apply global_init_once_ok; exact G).
  erewrite bind_Return by (unfold curl_easy_init; rewrite K; reflexivity).
  erewrite bind_Return by (apply update_at; apply lookup_insert_eq).
  unfold once_fired, with_heap; cbn [heap g_curl_once next_easy easy cleaned set_h].
  rewrite insert_insert_eq.
  match goal with
  | |- context [apply_common_options this ?v] =>
      change v with
        (put {| g_curl_once := true; next_easy := S (next_easy w);
                easy := easy w; cleaned := cleaned w; heap := heap w |}
             this (mkHttpClient (Some (next_easy w)) opt "" [])
             (next_easy w) (mkEasy [] 0))
  end.
  now rewrite apply_common_options_put.
Qed.

End Construction.

(** ** The header line rule *)

Lemma find_CRLF_self : StdString.find CRLF CRLF = Some 0.
Proof. reflexivity. Qed.

Lemma text_not_blank (content : string) :
  content <> EmptyString ->
  StdString.find CRLF content = None ->
  is_blank_line content = false /\ is_blank_line (content ++ CRLF) = false.
Proof.
  intros N F. unfold is_blank_line. split.
  - destruct content as [|a s]; [congruence|]. cbn [StdString.empty orb].
    destruct (String.eqb (String a s) CRLF) eqn:E; [|reflexivity].
    apply String.eqb_eq in E. rewrite E, find_CRLF_self in F. discriminate.
  - destruct content as [|a s]; [congruence|].
    change ((String a s ++ CRLF)%string) with (String a (s ++ CRLF)).
    cbn [StdString.empty orb].
    destruct (String.eqb (String a (s ++ CRLF)) CRLF) eqn:E; [|reflexivity].
    apply String.eqb_eq in E. unfold CRLF in E at 2. injection E as _ E.
    destruct s as [|b s]; [discriminate E|].
    change ((String b s ++ CRLF)%string) with (String b (s ++ CRLF)) in E.
    injection E as _ E. destruct s; discriminate E.
Qed.

Lemma find_CRLF_split (line : string) (n : nat) :
  StdString.find CRLF line = Some n ->
  line = (StdString.first_n n line ++ CRLF ++ StdString.skip (n + 2) line)%string
  /\ StdString.find CRLF (StdString.first_n n line) = None.
Proof.
  revert n; induction line as [|a s IH]; intros n H.
  - discriminate H.
  - cbn [StdString.find] in H.
    destruct (String.prefix CRLF (String a s)) eqn:P.
    + injection H as <-. apply prefix_CRLF in P as [t P]. rewrite P.
      split; reflexivity.
    + destruct (StdString.find CRLF s) as [m|] eqn:F; [|discriminate H].
      cbn [option_map] in H. injection H as <-.
      destruct (IH m eq_refl) as [I1 I2].
      change (StdString.skip (S m + 2) (String a s)) with (StdString.skip (m + 2) s).
      cbn [StdString.first_n]. split.
      * change (String a s
                = String a (StdString.first_n m s ++ CRLF ++ StdString.skip (m + 2) s)).
        f_equal. exact I1.
      * cbn [StdString.find]. rewrite I2. cbn [option_map].
        destruct (String.prefix CRLF (String a (StdString.first_n m s))) eqn:Q;
          [|reflexivity].
        exfalso. apply prefix_CRLF in Q as [t Q]. injection Q as -> Q.
        rewrite I1, Q in P.
        assert (String.prefix CRLF
                  (String CR (String LF t ++ CRLF ++ StdString.skip (m + 2) s)) = true)
          by (apply prefix_CRLF; eexists; reflexivity).
        congruence.
Qed.

(** C4, as the code has it: a line that is not a status line leaves the
    accumulator alone when it is empty or is exactly the line ending CRLF;
    every other line appends one pair, got from the text of the line, which
    is what precedes its first CRLF or all of it when it holds none: the
    text is split at its first colon into the name before it and the value
    after it without its leading spaces and tabs, and a text without colon
    is stored whole with an empty value. *)
Theorem header_line_rule (w : World) (this : addr) (c : HttpClient)
        (line : string) :
  heap w !! this = Some c ->
  is_status_line line = false ->
  exists (w' : World) (c' : HttpClient) (text : string),
    write_header_cb line this w = (Return (String.length line), w')
    /\ heap w' !! this = Some c'
    /\ ((StdString.find CRLF line = None /\ text = line)
        \/ (exists rest : string,
               line = (text ++ CRLF ++ rest)%string
               /\ StdString.find CRLF text = None))
    /\ (line = EmptyString \/ line = CRLF -> c' = c)
    /\ (line <> EmptyString -> line <> CRLF ->
        exists name value : string,
          c' = set_hdr_acc (hdr_acc_ c ++ [(name, value)]) c
          /\ ((StdString.find_char COLON text = None
               /\ name = text /\ value = EmptyString)
              \/ (exists ws : string,
                     text = (name ++ String COLON (ws ++ value))%string
                     /\ StdString.find_char COLON name = None
                     /\ all_blank ws = true
                     /\ starts_blank value = false))).
Proof.
  intros Hc Hs.
  exists (with_heap w (<[this := header_line_received line c]> (heap w))),
         (header_line_received line c), (line_text line).
  split; [unfold write_header_cb, bind, update, ret; now rewrite Hc|].
  split; [apply lookup_insert_eq|].
  split.
  { unfold line_text, StdString.substr.
    destruct (StdString.find CRLF line) as [n|] eqn:F.
    - right. destruct (find_CRLF_split line n F) as [S1 S2].
      exists (StdString.skip (n + 2) line). cbn [StdString.skip]. auto.
    - left. auto. }
  rewrite header_line_received_cases, Hs. split.
  - intros [-> | ->]; reflexivity.
  - intros N1 N2.
    assert (B : is_blank_line line = false).
    { unfold is_blank_line. apply orb_false_iff. split.
      - now destruct line.
      - now apply String.eqb_neq. }
    rewrite B.
    destruct (split_header_line_spec (line_text line))
      as [[F E] | (name & ws & value & E & D & F & W & V)]; rewrite E.
    + exists (line_text line), EmptyString. split; [reflexivity|]. left. auto.
    + exists name, value. split; [reflexivity|]. right. exists ws. auto.
Qed.

(** ** Defaults *)

Lemma ctor_returns (this : addr) (opt : Options) (env : Env) (w w1 : World) :
  HttpClient_ctor this opt env w = (Return tt, w1) ->
  exists (id : nat) (e : Easy),
    live w1 this id (mkHttpClient (Some id) opt "" []) e
    /\ options e = baseline_options this opt.
Proof.
  intros H.
  destruct (g_curl_once w) eqn:G; [|destruct (Z.eq_dec (global_init_rc env) 0%Z) as [Hz|Hz]];
    try (rewrite ctor_global_init_fails in H by assumption; discriminate);
    (destruct (easy_init_ok env) eqn:K;
     [ rewrite ctor_succeeds in H by auto
     | rewrite ctor_easy_init_fails in H by auto; discriminate ]);
    injection H as <-; eexists _, _; (split; [apply put_live|]); reflexivity.
Qed.

Lemma send_each_live (strerror : Z -> string) (this : addr) (id : nat)
      (calls : list (request * Network)) :
  forall (w : World) (c : HttpClient) (e : Easy),
    live w this id c e ->
    exists (c' : HttpClient) (e' : Easy),
      live (send_each strerror this calls w) this id c' e' /\ opt_ c' = opt_ c.
Proof.
  induction calls as [|[r net] calls IH]; intros w c e L; simpl.
  - eauto.
  - rewrite (send_live strerror _ _ _ _ _ r net L). cbn [snd].
    set (t := net (request_options this (opt_ c) r)).
    destruct (after_transfer_keeps c t) as [K1 K2].
    assert (L1 : live (put w this (after_transfer c t) id
                           (mkEasy (request_options this (opt_ c) r) (final_code t)))
                      this id (after_transfer c t)
                      (mkEasy (request_options this (opt_ c) r) (final_code t))).
    { apply put_live. rewrite K1. apply L. }
    destruct (IH _ _ _ L1) as (c' & e' & L' & O').
    exists c', e'. split; [exact L' | congruence].
Qed.

Section Defaults.

Variable strerror : Z -> string.


(** C7, as the code has it: the wrapper throws one kind of error,
    [HttpError].  Construction throws it, with one of two fixed messages,
    when the process-wide initialisation or the handle allocation fails,
    and then no object and no handle exists; a request on a live session
    throws it, with the engine's diagnostic in the message, exactly when
    the transfer fails.  The two situations differ in their message, not
    in their kind. *)
Theorem one_error_kind :
  (forall (this : addr) (opt : Options) (env : Env) (w w' : World) (ex : exn),
      HttpClient_ctor this opt env w = (Throw ex, w') ->
      (ex = HttpError "curl_global_init failed"
       \/ ex = HttpError "curl_easy_init failed")
      /\ heap w' !! this = None
      /\ easy w' = easy w
      /\ cleaned w' = cleaned w)
  /\ (forall (this : addr) (opt : Options) (env : Env) (w : World),
        g_curl_once w = false ->
        global_init_rc env <> 0%Z ->
        fst (HttpClient_ctor this opt env w)
        = Throw (HttpError "curl_global_init failed"))
  /\ (forall (this : addr) (opt : Options) (env : Env) (w : World),
        g_curl_once w = true \/ global_init_rc env = 0%Z ->
        easy_init_ok env = false ->
        fst (HttpClient_ctor this opt env w)
        = Throw (HttpError "curl_easy_init failed"))
  /\ (forall (this : addr) (opt : Options) (env : Env) (w : World),
        fst (HttpClient_ctor this opt env w) <> Undefined)
  /\ (forall (w : World) (this : addr) (id : nat) (c : HttpClient) (e : Easy)
             (r : request) (net : Network),
        live w this id c e ->
        let t := net (request_options this (opt_ c) r) in
        fst (send strerror this r net w)
        = if (result t =? CURLE_OK)%Z then Return (response_of t)
          else Throw (HttpError ("curl_easy_perform failed: " ++ strerror (result t))))
  /\ (forall ex : exn, class_of ex = net_HttpError)
/\ (forall (e1 e2 : exn) (handler : exn_class),
      caught_by handler e1 = caught_by handler e2)
/\ (forall diagnostic : string,
      ("curl_easy_perform failed: " ++ diagnostic)%string <> "curl_global_init failed"
      /\ ("curl_easy_perform failed: " ++ diagnostic)%string <> "curl_easy_init failed").
Proof.
  assert (cases : forall (env : Env) (w : World),
             (g_curl_once w = false /\ global_init_rc env <> 0%Z)
             \/ ((g_curl_once w = true \/ global_init_rc env = 0%Z)
                 /\ easy_init_ok env = false)
             \/ ((g_curl_once w = true \/ global_init_rc env = 0%Z)
                 /\ easy_init_ok env = true)).
  { intros env w. destruct (g_curl_once w); destruct (Z.eq_dec (global_init_rc env) 0%Z);
      destruct (easy_init_ok env); auto. }
  repeat apply conj.
  - intros this opt env w w' ex H.
    destruct (cases env w) as [[G N] | [[G K] | [G K]]].
    + rewrite ctor_global_init_fails in H by assumption.
      injection H as <- <-. cbn [with_heap heap easy cleaned].
      rewrite lookup_delete_eq. auto.
    + rewrite ctor_easy_init_fails in H by assumption.
      injection H as <- <-. cbn [once_fired with_heap heap easy cleaned].
      rewrite lookup_delete_eq. auto.
    + rewrite ctor_succeeds in H by assumption. discriminate.
  - intros this opt env w G N. now rewrite ctor_global_init_fails.
  - intros this opt env w G K. now rewrite ctor_easy_init_fails.
  - intros this opt env w.
    destruct (cases env w) as [[G N] | [[G K] | [G K]]].
    + now rewrite ctor_global_init_fails.
    + now rewrite ctor_easy_init_fails.
    + now rewrite ctor_succeeds.
  - intros w this id c e r net L t.
    now rewrite (send_live strerror _ _ _ _ _ r net L).
  - now intros [what].
  - now intros [what1] [what2] handler.
  - intros diagnostic. split; intros H; cbv in H; discriminate H.
Qed.

End Defaults.

(** ** Ownership of the handle *)

Ltac look :=
  cbn [heap easy cleaned with_heap with_easy g_curl_once next_easy];
  repeat first [ rewrite lookup_insert_eq
               | rewrite lookup_insert_ne by congruence
               | rewrite lookup_delete_ne by congruence ];
  first [ eassumption | reflexivity ].

Ltac run_deref := erewrite bind_Return by (apply deref_at; look); cbv beta.
Ltac run_update := erewrite bind_Return by (apply update_at; look); cbv beta.

Section Ownership.

Context (w : World) (this other : addr) (id : nat) (c : HttpClient) (e : Easy).
Hypothesis source_live : live w other id c e.
Hypothesis distinct : this <> other.

Lemma move_ctor_runs :
  HttpClient_move_ctor this other w
  = (Return tt,
     with_heap w (<[other := set_h None c]>
                    (<[this := mkHttpClient (Some id) (opt_ c) "" []]> (heap w)))).
Proof.
  destruct source_live as (Hc & Hh & He).
  unfold HttpClient_move_ctor.
  run_deref. erewrite bind_Return by (unfold emplace; reflexivity).
  rewrite Hh. erewrite update_at by look. reflexivity.
Qed.

Lemma dtor_of_moved_from (v : World) (s : HttpClient) :
  heap v !! other = Some s ->
  h_ s = None ->
  HttpClient_dtor other v = (Return tt, with_heap v (delete other (heap v))).
Proof.
  intros Hs Hn. unfold HttpClient_dtor.
  erewrite bind_Return by (apply deref_at; exact Hs). cbv beta.
  rewrite Hn. erewrite bind_Return by reflexivity. reflexivity.
Qed.

Lemma dtor_of_owner (v : World) (p : addr) (d : HttpClient) (e0 : Easy) :
  heap v !! p = Some d ->
  h_ d = Some id ->
  easy v !! id = Some e0 ->
  HttpClient_dtor p v
  = (Return tt,
     {| g_curl_once := g_curl_once v; next_easy := next_easy v;
        easy := delete id (easy v); cleaned := cleaned v ++ [id];
        heap := delete p (heap v) |}).
Proof.
  intros Hd Hh He. unfold HttpClient_dtor.
  erewrite bind_Return by (apply deref_at; exact Hd). cbv beta.
  rewrite Hh. erewrite bind_Return by (eapply cleanup_at; exact He).
  reflexivity.
Qed.

Lemma move_assign_runs (d : HttpClient) :
  heap w !! this = Some d ->
  (forall id' : nat, h_ d = Some id' -> id' <> id /\ is_Some (easy w !! id')) ->
  exists w1 : World,
    HttpClient_move_assign this other w = (Return tt, w1)
    /\ heap w1 = <[other := set_h None c]>
                   (<[this := set_opt (opt_ c) (set_h (Some id) d)]> (heap w))
    /\ easy w1 = match h_ d with
                 | Some id' => delete id' (easy w)
                 | None => easy w
                 end
    /\ cleaned w1 = cleaned w ++ match h_ d with
                                 | Some id' => [id']
                                 | None => []
                                 end.
Proof.
  destruct source_live as (Hc & Hh & He).
  intros Hd Hold. unfold HttpClient_move_assign.
  rewrite decide_True by exact distinct.
  run_deref.
  destruct (h_ d) as [id'|] eqn:Hd'.
  - destruct (Hold id' eq_refl) as [Hne [e0 He0]].
    erewrite bind_Return by (eapply cleanup_at; exact He0).
    run_deref. rewrite Hh. do 2 run_update.
    erewrite update_at by look.
    eexists. split; [reflexivity|].
    cbn [heap easy cleaned with_heap]. rewrite insert_insert_eq. auto.
  - erewrite bind_Return by reflexivity.
    run_deref. rewrite Hh. do 2 run_update.
    erewrite update_at by look.
    eexists. split; [reflexivity|].
    cbn [heap easy cleaned with_heap]. rewrite insert_insert_eq, app_nil_r. auto.
Qed.

(** C9: the class deletes its copy operations; move construction and
    move assignment hand the source's handle to the destination and leave
    the source with a null handle, so destroying the source releases
    nothing and the handle is released once, by the destination. *)
Theorem move_transfers_the_handle :
  HttpClient_declares copy_constructor = deleted
  /\ HttpClient_declares copy_assignment = deleted
  /\ (exists w1 w2 w3 : World,
        HttpClient_move_ctor this other w = (Return tt, w1)
        /\ (exists d : HttpClient, heap w1 !! this = Some d /\ h_ d = Some id)
        /\ (exists s : HttpClient, heap w1 !! other = Some s /\ h_ s = None)
        /\ easy w1 = easy w /\ cleaned w1 = cleaned w
        /\ HttpClient_dtor other w1 = (Return tt, w2)
        /\ easy w2 = easy w /\ cleaned w2 = cleaned w
        /\ HttpClient_dtor this w2 = (Return tt, w3)
        /\ easy w3 = delete id (easy w) /\ cleaned w3 = cleaned w ++ [id])
  /\ (forall d : HttpClient,
        heap w !! this = Some d ->
        (forall id' : nat, h_ d = Some id' -> id' <> id /\ is_Some (easy w !! id')) ->
        exists w1 w2 w3 : World,
          HttpClient_move_assign this other w = (Return tt, w1)
          /\ (exists d' : HttpClient, heap w1 !! this = Some d' /\ h_ d' = Some id)
          /\ (exists s : HttpClient, heap w1 !! other = Some s /\ h_ s = None)
          /\ easy w1 !! id = Some e
          /\ cleaned w1 = cleaned w ++ match h_ d with
                                       | Some id' => [id']
                                       | None => []
                                       end
          /\ HttpClient_dtor other w1 = (Return tt, w2)
          /\ easy w2 = easy w1 /\ cleaned w2 = cleaned w1
          /\ HttpClient_dtor this w2 = (Return tt, w3)
          /\ easy w3 = delete id (easy w1) /\ cleaned w3 = cleaned w1 ++ [id])
  /\ HttpClient_move_assign other other w = (Return tt, w).
Proof.
  pose proof source_live as (Hc & Hh & He).
  split; [reflexivity|]. split; [reflexivity|]. split; [|split].
  - eexists _, _, _. split; [apply move_ctor_runs|].
    split; [eexists; split; [look | reflexivity]|].
    split; [eexists; split; [look | reflexivity]|].
    split; [reflexivity|]. split; [reflexivity|].
    split; [eapply dtor_of_moved_from; [look | reflexivity]|].
    split; [reflexivity|]. split; [reflexivity|].
    split; [eapply dtor_of_owner; [look | reflexivity | exact He]|].
    split; reflexivity.
  - intros d Hd Hold.
    destruct (move_assign_runs d Hd Hold) as (w1 & R & H1 & E1 & C1).
    assert (Hid : easy w1 !! id = Some e).
    { rewrite E1. destruct (h_ d) as [id'|] eqn:Hd'; [|exact He].
      destruct (Hold id' eq_refl) as [Hne _].
      rewrite lookup_delete_ne by congruence. exact He. }
    assert (Hs : heap w1 !! other = Some (set_h None c))
      by (rewrite H1; apply lookup_insert_eq).
    assert (Ht : heap w1 !! this = Some (set_opt (opt_ c) (set_h (Some id) d))).
    { rewrite H1, lookup_insert_ne by congruence. apply lookup_insert_eq. }
    eexists w1, _, _. split; [exact R|].
    split; [eexists; split; [exact Ht | reflexivity]|].
    split; [eexists; split; [exact Hs | reflexivity]|].
    split; [exact Hid|]. split; [exact C1|].
    split; [eapply dtor_of_moved_from; [exact Hs | reflexivity]|].
    split; [reflexivity|]. split; [reflexivity|].
    split; [eapply dtor_of_owner;
            [ cbn [heap with_heap]; rewrite lookup_delete_ne by congruence; exact Ht
            | reflexivity | exact Hid ]|].
    split; reflexivity.
  - unfold HttpClient_move_assign. now rewrite decide_False by auto.
Qed.

End Ownership.

(** ** The theorems at work on the sample session *)

Lemma session_world_live : live session_world 7 0 used_client used_easy.
Proof. repeat split; vm_compute; reflexivity. Qed.

Lemma two_sessions_live : live two_sessions 7 0 used_client used_easy.
Proof. repeat split; vm_compute; reflexivity. Qed.

Lemma headers_from_final_section_witness :
  live session_world 7 0 used_client used_easy
  /\ result (redirect_net
               (request_options 7 (opt_ used_client)
                  (GET "http://example.org/" [("Accept", "text/plain")])))
     = CURLE_OK
  /\ exists (resp : Response) (w' : World),
       send sample_strerror 7 (GET "http://example.org/" [("Accept", "text/plain")])
            redirect_net session_world
       = (Return resp, w')
       /\ headers resp = [("Content-Type", "text/plain"); ("Weird", "")].
Proof.
  split; [exact session_world_live|]. split; [reflexivity|].
  destruct (headers_from_final_section sample_strerror session_world 7 0
              used_client used_easy
              (GET "http://example.org/" [("Accept", "text/plain")])
              redirect_net session_world_live eq_refl)
    as (resp & w' & S & H & _).
  exists resp, w'. split; [exact S | exact H].
Defined.

Lemma body_is_concatenation_witness :
  live session_world 7 0 used_client used_easy
  /\ result (redirect_net
               (request_options 7 (opt_ used_client) (POST "http://example.org/" zero_body [])))
     = CURLE_OK
  /\ exists (resp : Response) (w' : World),
       send sample_strerror 7 (POST "http://example.org/" zero_body [])
            redirect_net session_world
       = (Return resp, w')
       /\ body resp = "hello".
Proof.
  split; [exact session_world_live|]. split; [reflexivity|].
  destruct (body_is_concatenation sample_strerror session_world 7 0
              used_client used_easy
              (POST "http://example.org/" zero_body [])
              redirect_net session_world_live eq_refl)
    as (resp & w' & S & H & _).
  exists resp, w'. split; [exact S | exact H].
Defined.

Lemma failure_raises_success_returns_witness :
  live session_world 7 0 used_client used_easy
  /\ exists (w' : World) (c' : HttpClient) (e' : Easy),
       send sample_strerror 7 (GET "http://nowhere.invalid/" []) failing_net session_world
       = (Throw (HttpError "curl_easy_perform failed: Couldn't resolve host name"), w')
       /\ live w' 7 0 c' e'
       /\ exists w2 : World,
            send sample_strerror 7 (GET "http://example.org/" []) redirect_net w'
            = (Return (response_of (redirect_net [])), w2).
Proof.
  split; [exact session_world_live|].
  destruct (failure_raises_success_returns sample_strerror session_world 7 0
              used_client used_easy (GET "http://nowhere.invalid/" [])
              failing_net session_world_live)
    as (o & w' & c' & e' & S & F & _ & L & _ & N).
  exists w', c', e'. split; [|split; [exact L|]].
  - rewrite S. f_equal. apply F. discriminate.
  - destruct (N (GET "http://example.org/" []) redirect_net eq_refl) as (w2 & S2).
    exists w2. exact S2.
Defined.

Lemma no_residue_between_calls_witness :
  live session_world 7 0 used_client used_easy
  /\ exists (o1 : outcome Response) (w1 : World),
       send sample_strerror 7 (GET "http://nowhere.invalid/" []) failing_net session_world
       = (o1, w1)
       /\ exists w2 : World,
            send sample_strerror 7 (GET "http://example.org/" []) redirect_net w1
            = (Return {| status := 200; body := "hello";
                         headers := [("Content-Type", "text/plain"); ("Weird", "")] |},
               w2).
Proof.
  split; [exact session_world_live|].
  destruct (no_residue_between_calls sample_strerror session_world 7 0
              used_client used_easy
              (GET "http://nowhere.invalid/" []) (GET "http://example.org/" [])
              failing_net redirect_net session_world_live)
    as (o1 & w1 & c1 & e1 & S1 & _ & _ & _ & N).
  exists o1, w1. split; [exact S1|].
  destruct (N eq_refl) as (w2 & _ & _ & S2 & _).
  exists w2. exact S2.
Defined.

Lemma baseline_before_every_request_witness :
  live session_world 7 0 used_client used_easy
  /\ exists (o : outcome Response) (w' : World) (c' : HttpClient) (e' : Easy),
       send sample_strerror 7 (GET "http://example.org/" [("Accept", "text/plain")])
            redirect_net session_world
       = (o, w')
       /\ live w' 7 0 c' e'
       /\ options e'
          = [ CURLOPT_WRITEFUNCTION cb_write_body; CURLOPT_WRITEDATA 7;
              CURLOPT_HEADERFUNCTION cb_write_header; CURLOPT_HEADERDATA 7;
              CURLOPT_TIMEOUT_MS 15000; CURLOPT_FOLLOWLOCATION 1;
              CURLOPT_USERAGENT "HttpClient/1.0";
              CURLOPT_SSL_VERIFYPEER 1; CURLOPT_SSL_VERIFYHOST 2;
              CURLOPT_HTTPGET 1; CURLOPT_URL "http://example.org/";
              CURLOPT_HTTPHEADER ["Accept: text/plain"] ].
Proof.
  split; [exact session_world_live|].
  destruct (baseline_before_every_request sample_strerror session_world 7 0
              used_client used_easy
              (GET "http://example.org/" [("Accept", "text/plain")])
              redirect_net session_world_live)
    as (o & w' & c' & e' & S & L & _ & O & _).
  exists o, w', c', e'. split; [exact S|]. split; [exact L | exact O].
Defined.

Lemma post_gives_explicit_length_witness :
  live session_world 7 0 used_client used_easy
  /\ (Z.of_nat (String.length zero_body) <= LONG_MAX)%Z
  /\ exists (o : outcome Response) (w' : World) (c' : HttpClient) (e' : Easy),
       post sample_strerror 7 "http://example.org/" zero_body [] redirect_net session_world
       = (o, w')
       /\ live w' 7 0 c' e'
       /\ options e'
          = baseline_options 7 Options_default
            ++ [ CURLOPT_POST 1; CURLOPT_URL "http://example.org/";
                 CURLOPT_POSTFIELDS zero_body; CURLOPT_POSTFIELDSIZE 3 ].
Proof.
  split; [exact session_world_live|].
  assert (B : (Z.of_nat (String.length zero_body) <= LONG_MAX)%Z)
    by (vm_compute; discriminate).
  split; [exact B|].
  destruct (post_gives_explicit_length sample_strerror session_world 7 0
              used_client used_easy "http://example.org/" zero_body []
              redirect_net session_world_live B)
    as (o & w' & c' & e' & S & L & O & _).
  exists o, w', c', e'. split; [exact S|]. split; [exact L | exact O].
Defined.

Lemma header_line_rule_witness :
  heap session_world !! 7 = Some used_client
  /\ is_status_line ("Content-Type:  text/plain" ++ CRLF) = false
  /\ exists (w' : World) (c' : HttpClient),
       write_header_cb ("Content-Type:  text/plain" ++ CRLF) 7 session_world
       = (Return 27, w')
       /\ heap w' !! 7 = Some c'
       /\ exists name value : string,
            c' = set_hdr_acc ([("Old", "1")] ++ [(name, value)]) used_client.
Proof.
  assert (H1 : heap session_world !! 7 = Some used_client)
    by (vm_compute; reflexivity).
  split; [exact H1|]. split; [reflexivity|].
  destruct (header_line_rule session_world 7 used_client
              ("Content-Type:  text/plain" ++ CRLF) H1 eq_refl)
    as (w' & c' & text & R & Hc & _ & _ & P).
  exists w', c'. split; [exact R|]. split; [exact Hc|].
  destruct (P ltac:(discriminate) ltac:(discriminate)) as (name & value & E & _).
  exists name, value. exact E.
Defined.


Lemma one_error_kind_witness :
  HttpClient_ctor 7 Options_default no_handle_env world0
  = (Throw (HttpError "curl_easy_init failed"),
     snd (HttpClient_ctor 7 Options_default no_handle_env world0))
  /\ heap (snd (HttpClient_ctor 7 Options_default no_handle_env world0)) !! 7 = None.
Proof.
  assert (C : HttpClient_ctor 7 Options_default no_handle_env world0
              = (Throw (HttpError "curl_easy_init failed"),
                 snd (HttpClient_ctor 7 Options_default no_handle_env world0))).
  { rewrite ctor_easy_init_fails; [reflexivity | now right | reflexivity]. }
  split; [exact C|].
  destruct (one_error_kind sample_strerror) as [H _].
  destruct (H 7 Options_default no_handle_env world0 _ _ C) as (_ & N & _).
  exact N.
Defined.

Lemma move_transfers_the_handle_witness :
  live two_sessions 7 0 used_client used_easy
  /\ 8 <> 7
  /\ (exists w1 w2 w3 : World,
        HttpClient_move_ctor 8 7 two_sessions = (Return tt, w1)
        /\ HttpClient_dtor 7 w1 = (Return tt, w2)
        /\ cleaned w2 = []
        /\ HttpClient_dtor 8 w2 = (Return tt, w3)
        /\ cleaned w3 = [0])
  /\ (exists w1 w2 w3 : World,
        HttpClient_move_assign 8 7 two_sessions = (Return tt, w1)
        /\ cleaned w1 = [1]
        /\ HttpClient_dtor 7 w1 = (Return tt, w2)
        /\ cleaned w2 = [1]
        /\ HttpClient_dtor 8 w2 = (Return tt, w3)
        /\ cleaned w3 = [1; 0]).
Proof.
  assert (D : 8 <> 7) by discriminate.
  split; [exact two_sessions_live|]. split; [exact D|].
  destruct (move_transfers_the_handle two_sessions 8 7 0 used_client used_easy
              two_sessions_live D)
    as (_ & _ & (w1 & w2 & w3 & M & _ & _ & _ & _ & D1 & _ & C2 & D2 & _ & C3) & A & _).
  split.
  - exists w1, w2, w3. repeat split; assumption.
  - assert (H8 : heap two_sessions !! 8 = Some second_client)
      by (vm_compute; reflexivity).
    destruct (A second_client H8) as (v1 & v2 & v3 & M' & _ & _ & _ & C1' & D1' & _ & C2' & D2' & _ & C3').
    { intros id' [= <-]. split; [discriminate|]. vm_compute. eexists. reflexivity. }
    exists v1, v2, v3. repeat split; try assumption.
    + rewrite C2'. exact C1'.
    + rewrite C3', C1'. reflexivity.
Defined.

(** C4 as the specification states it does not hold: the section
    terminator of a response whose lines end in a bare LF is a blank line
    and not a status line, and the callback does not ignore it but stores
    the pair of that line and the empty string. *)
Lemma blank_line_not_ignored :
  is_status_line (String LF EmptyString) = false
  /\ blank_as_specified (String LF EmptyString) = true
  /\ (exists w' : World,
        write_header_cb (String LF EmptyString) 7 session_world = (Return 1, w')
        /\ heap w' !! 7
           = Some (set_hdr_acc [("Old", "1"); (String LF EmptyString, EmptyString)]
                               used_client))
  /\ hdr_acc_ (header_line_received (String LF EmptyString) used_client)
     <> hdr_acc_ used_client.
Proof.
  split; [reflexivity|]. split; [reflexivity|]. split.
  - eexists. split; [reflexivity|]. vm_compute. reflexivity.
  - vm_compute. discriminate.
Qed.

(** C7 as the specification states it does not hold: the error of a failed
    construction and the error of a failed transfer are of one and the same
    kind, so no handler that selects on the kind tells them apart. *)
Lemma error_kinds_not_distinct :
  exists (e1 e2 : exn) (w1 w2 : World),
    HttpClient_ctor 7 Options_default no_handle_env world0 = (Throw e1, w1)
    /\ send sample_strerror 7 (GET "http://nowhere.invalid/" []) failing_net session_world
       = (Throw e2, w2)
    /\ ~ (exists handler : exn_class,
             caught_by handler e1 = true /\ caught_by handler e2 = false)
    /\ ~ (exists handler : exn_class,
             caught_by handler e2 = true /\ caught_by handler e1 = false).
Proof.
  exists (HttpError "curl_easy_init failed"),
         (HttpError "curl_easy_perform failed: Couldn't resolve host name").
  eexists _, _. split; [|split; [|split]].
  - apply ctor_easy_init_fails; [now right | reflexivity].
  - rewrite (send_live sample_strerror _ _ _ _ _ _ failing_net session_world_live).
    reflexivity.
  - intros (handler & K1 & K2). unfold caught_by in K1, K2. simpl in K1, K2. congruence.
  - intros (handler & K1 & K2). unfold caught_by in K1, K2. simpl in K1, K2. congruence.
Qed.

(** ** Reconfiguration *)


Section Reconfiguration.

Variable strerror : Z -> string.


(** X2: a request changes nothing but its own session: every other object
    and every other handle is as before, no handle is released or
    allocated, and the once-flag keeps its state. *)
Theorem request_touches_only_its_session (w : World) (this : addr) (id : nat)
        (c : HttpClient) (e : Easy) (r : request) (net : Network) :
  live w this id c e ->
  let w' := snd (send strerror this r net w) in
  (forall p : addr, p <> this -> heap w' !! p = heap w !! p)
  /\ (forall h : nat, h <> id -> easy w' !! h = easy w !! h)
  /\ cleaned w' = cleaned w
  /\ next_easy w' = next_easy w
  /\ g_curl_once w' = g_curl_once w
  /\ is_Some (heap w' !! this)
  /\ is_Some (easy w' !! id).
Proof.
  intros L w'. unfold w'. rewrite (send_live strerror _ _ _ _ _ r net L).
  cbn [snd put heap easy cleaned next_easy g_curl_once]. repeat split.
  - intros p Hp. now rewrite lookup_insert_ne by congruence.
  - intros h Hh. now rewrite lookup_insert_ne by congruence.
  - rewrite lookup_insert_eq. eauto.
  - rewrite lookup_insert_eq. eauto.
Qed.

End Reconfiguration.

(** ** Construction and destruction *)

Lemma ctor_cases (env : Env) (w : World) :
  (g_curl_once w = false /\ global_init_rc env <> 0%Z)
  \/ ((g_curl_once w = true \/ global_init_rc env = 0%Z) /\ easy_init_ok env = false)
  \/ ((g_curl_once w = true \/ global_init_rc env = 0%Z) /\ easy_init_ok env = true).
Proof.
  destruct (g_curl_once w); destruct (Z.eq_dec (global_init_rc env) 0%Z);
    destruct (easy_init_ok env); auto.
Qed.

(** X3: the process-wide initialisation is tried until it succeeds and
    never again: once the flag has fired a construction does not depend on
    what [curl_global_init] would return; a failed initialisation leaves the
    flag unfired and allocates nothing, so that a later construction tries
    again; and every construction that gets past the initialisation leaves
    the flag fired, whether or not a handle could be allocated. *)
Theorem global_init_at_most_once (this : addr) (opt : Options) (env : Env) (w : World) :
  (g_curl_once w = true ->
   forall rc : Z,
     HttpClient_ctor this opt env w
     = HttpClient_ctor this opt (mkEnv rc (easy_init_ok env)) w)
  /\ (g_curl_once w = false -> global_init_rc env <> 0%Z ->
      exists w' : World,
        HttpClient_ctor this opt env w
        = (Throw (HttpError "curl_global_init failed"), w')
        /\ g_curl_once w' = false
        /\ next_easy w' = next_easy w
        /\ easy w' = easy w
        /\ forall (this2 : addr) (opt2 : Options) (env2 : Env),
             global_init_rc env2 = 0%Z -> easy_init_ok env2 = true ->
             exists w2 : World,
               HttpClient_ctor this2 opt2 env2 w' = (Return tt, w2)
               /\ g_curl_once w2 = true)
  /\ (g_curl_once w = true \/ global_init_rc env = 0%Z ->
      g_curl_once (snd (HttpClient_ctor this opt env w)) = true).
Proof.
  split; [|split].
  - intros G rc. destruct (easy_init_ok env) eqn:K.
    + rewrite !ctor_succeeds by auto. reflexivity.
    + rewrite !ctor_easy_init_fails by auto. reflexivity.
  - intros G N. rewrite ctor_global_init_fails by assumption.
    eexists. split; [reflexivity|]. cbn [with_heap g_curl_once next_easy easy].
    repeat split; trivial.
    intros this2 opt2 env2 R K. eexists. split.
    + apply ctor_succeeds; [right; exact R | exact K].
    + reflexivity.
  - intros G. destruct (easy_init_ok env) eqn:K.
    + rewrite ctor_succeeds by auto. reflexivity.
    + rewrite ctor_easy_init_fails by auto. reflexivity.
Qed.

(** X4: a construction that returns has built a ready session: the object
    holds the given options and empty accumulators, its handle is a new one
    on which the baseline is already applied, and no other object, no other
    handle and no release is involved. *)
Theorem construction_builds_ready_session (this : addr) (opt : Options)
        (env : Env) (w w1 : World) :
  HttpClient_ctor this opt env w = (Return tt, w1) ->
  live w1 this (next_easy w)
       (mkHttpClient (Some (next_easy w)) opt "" [])
       (mkEasy (baseline_options this opt) 0)
  /\ next_easy w1 = S (next_easy w)
  /\ (forall p : addr, p <> this -> heap w1 !! p = heap w !! p)
  /\ (forall h : nat, h <> next_easy w -> easy w1 !! h = easy w !! h)
  /\ cleaned w1 = cleaned w.
Proof.
  intros H.
  destruct (ctor_cases env w) as [[G N] | [[G K] | [G K]]].
  - rewrite ctor_global_init_fails in H by assumption. discriminate.
  - rewrite ctor_easy_init_fails in H by assumption. discriminate.
  - rewrite ctor_succeeds in H by assumption. injection H as <-.
    split; [apply put_live; reflexivity|].
    cbn [put heap easy cleaned next_easy]. repeat split.
    + intros p Hp. now rewrite lookup_insert_ne by congruence.
    + intros h Hh. now rewrite lookup_insert_ne by congruence.
Qed.

(** X5: constructing a session in free storage and destroying it again
    leaves the objects and the live handles exactly as they were; the one
    handle the session acquired has been released, once. *)
Theorem construct_then_destroy (this : addr) (opt : Options) (env : Env)
        (w w1 : World) :
  heap w !! this = None ->
  easy w !! next_easy w = None ->
  HttpClient_ctor this opt env w = (Return tt, w1) ->
  exists w2 : World,
    HttpClient_dtor this w1 = (Return tt, w2)
    /\ heap w2 = heap w
    /\ easy w2 = easy w
    /\ cleaned w2 = cleaned w ++ [next_easy w].
Proof.
  intros Hfree Hfresh H.
  destruct (ctor_cases env w) as [[G N] | [[G K] | [G K]]].
  - rewrite ctor_global_init_fails in H by assumption. discriminate.
  - rewrite ctor_easy_init_fails in H by assumption. discriminate.
  - rewrite ctor_succeeds in H by assumption. injection H as <-.
    eexists. split.
    + eapply (dtor_of_owner (next_easy w)).
      * apply lookup_insert_eq.
      * reflexivity.
      * apply lookup_insert_eq.
    + cbn [put heap easy cleaned].
      rewrite (delete_insert_id (heap w)) by exact Hfree.
      rewrite (delete_insert_id (easy w)) by exact Hfresh. auto.
Qed.

(** ** Sessions after a move *)

Section AfterMove.

Variable strerror : Z -> string.

(** X6: a session that received its handle by a move serves requests: the
    request runs under the source's configuration with the callbacks bound
    to the destination, whose accumulators it fills, while the source keeps
    its options and accumulators and its null handle.  This holds after
    move construction and after move assignment alike. *)
Theorem moved_to_session_serves_requests (w : World) (this other : addr)
        (id : nat) (c : HttpClient) (e : Easy) (r : request) (net : Network) :
  live w other id c e ->
  this <> other ->
  (exists w1 : World,
      HttpClient_move_ctor this other w = (Return tt, w1)
      /\ fst (send strerror this r net w1)
         = outcome_of strerror (net (request_options this (opt_ c) r))
      /\ heap (snd (send strerror this r net w1)) !! other = Some (set_h None c))
  /\ (forall d : HttpClient,
        heap w !! this = Some d ->
        (forall id' : nat, h_ d = Some id' -> id' <> id /\ is_Some (easy w !! id')) ->
        exists w1 : World,
          HttpClient_move_assign this other w = (Return tt, w1)
          /\ fst (send strerror this r net w1)
             = outcome_of strerror (net (request_options this (opt_ c) r))
          /\ heap (snd (send strerror this r net w1)) !! other = Some (set_h None c)).
Proof.
  intros L D. pose proof L as (Hc & Hh & He). split.
  - eexists. split; [apply (move_ctor_runs w this other id c e L D)|].
    match goal with
    | |- context [send strerror this r net ?v] =>
        assert (L1 : live v this id (mkHttpClient (Some id) (opt_ c) "" []) e)
    end.
    { repeat split; [look | exact He]. }
    rewrite (send_live strerror _ _ _ _ _ r net L1). split; [reflexivity|].
    cbn [snd put heap with_heap]. rewrite lookup_insert_ne by congruence.
    apply lookup_insert_eq.
  - intros d Hd Hold.
    destruct (move_assign_runs w this other id c e L D d Hd Hold)
      as (w1 & R & H1 & E1 & _).
    assert (L1 : live w1 this id (set_opt (opt_ c) (set_h (Some id) d)) e).
    { repeat split.
      - rewrite H1, lookup_insert_ne by congruence. apply lookup_insert_eq.
      - rewrite E1. destruct (h_ d) as [id'|] eqn:Hd'; [|exact He].
        destruct (Hold id' eq_refl) as [Hne _].
        rewrite lookup_delete_ne by congruence. exact He. }
    exists w1. split; [exact R|].
    rewrite (send_live strerror _ _ _ _ _ r net L1). split; [reflexivity|].
    cbn [snd put heap]. rewrite lookup_insert_ne by congruence.
    rewrite H1. apply lookup_insert_eq.
Qed.

End AfterMove.

(** ** The header parser, once more *)

Lemma find_char_app_colon (name rest : string) :
  StdString.find_char COLON name = None ->
  StdString.find_char COLON (name ++ String COLON rest) = Some (String.length name).
Proof.
  induction name as [|a name IH]; [reflexivity|].
  change ((String a name ++ String COLON rest)%string)
    with (String a (name ++ String COLON rest)).
  cbn [StdString.find_char String.length].
  destruct (Ascii.eqb a COLON); [discriminate|].
  destruct (StdString.find_char COLON name); [discriminate|].
  intros _. now rewrite IH.
Qed.

Lemma skip_length_app (s t : string) : StdString.skip (String.length s) (s ++ t) = t.
Proof. induction s as [|a s IH]; [now destruct t | exact IH]. Qed.

Lemma advance_blanks_app (ws value : string) (k : nat) :
  all_blank ws = true ->
  starts_blank value = false ->
  advance_blanks (ws ++ value) k = k + String.length ws.
Proof.
  revert k; induction ws as [|a ws IH]; intros k W V.
  - change (("" ++ value)%string) with value. cbn [String.length].
    rewrite Nat.add_0_r. destruct value as [|b value]; [reflexivity|].
    cbn [advance_blanks]. cbn [starts_blank] in V. unfold is_blank_char in V.
    now rewrite V.
  - change ((String a ws ++ value)%string) with (String a (ws ++ value)).
    cbn [all_blank] in W. apply andb_true_iff in W as [W1 W2].
    cbn [advance_blanks String.length]. unfold is_blank_char in W1.
    rewrite W1, IH by assumption. lia.
Qed.

(** The separator the wrapper itself writes between name and value. *)
Lemma split_of_composed (name value : string) :
  StdString.find_char COLON name = None ->
  starts_blank value = false ->
  split_header_line (name ++ ": " ++ value) = (name, value).
Proof.
  intros N V. unfold split_header_line.
  change ((name ++ ": " ++ value)%string)
    with ((name ++ String COLON (String SPACE value))%string).
  rewrite (find_char_app_colon name (String SPACE value) N).
  unfold StdString.substr. cbn [StdString.skip].
  rewrite first_n_length_app.
  rewrite (skip_add (String.length name) 1), skip_length_app.
  cbn [StdString.skip].
  rewrite (advance_blanks_app (String SPACE EmptyString) value _ eq_refl V).
  cbn [String.length].
  replace (String.length name + 1 + 1) with (String.length name + 2) by lia.
  rewrite (skip_add (String.length name)), skip_length_app.
  reflexivity.
Qed.

(** X7: the parser undoes the composition of a header line: a name without
    colon, a colon, any run of spaces and tabs and a value that starts with
    neither give back exactly that name and that value. *)
Theorem split_header_line_inverts (name ws value : string) :
  StdString.find_char COLON name = None ->
  all_blank ws = true ->
  starts_blank value = false ->
  split_header_line (name ++ String COLON (ws ++ value)) = (name, value).
Proof.
  intros N W V. unfold split_header_line.
  rewrite (find_char_app_colon name (ws ++ value) N).
  unfold StdString.substr. cbn [StdString.skip].
  rewrite first_n_length_app.
  rewrite (skip_add (String.length name) 1), skip_length_app.
  cbn [StdString.skip].
  rewrite (advance_blanks_app ws value _ W V).
  replace (String.length name + 1 + String.length ws)
    with (String.length name + (1 + String.length ws)) by lia.
  rewrite (skip_add (String.length name)), skip_length_app.
  cbn [Nat.add StdString.skip]. now rewrite skip_length_app.
Qed.

(** ** Request headers and their echo *)

Lemma c_str_plain (s : string) :
  StdString.find_char "000"%char s = None -> c_str s = s.
Proof.
  induction s as [|a s IH]; [reflexivity|]. cbn [StdString.find_char c_str].
  destruct (Ascii.eqb a "000"%char); [discriminate|].
  destruct (StdString.find_char "000"%char s); [discriminate|].
  intros _. now rewrite IH.
Qed.

Lemma c_str_cut (s t : string) :
  StdString.find_char "000"%char s = None ->
  c_str (s ++ String "000"%char t) = s.
Proof.
  induction s as [|a s IH]; [reflexivity|].
  change ((String a s ++ String "000"%char t)%string)
    with (String a (s ++ String "000"%char t)).
  cbn [StdString.find_char c_str].
  destruct (Ascii.eqb a "000"%char); [discriminate|].
  destruct (StdString.find_char "000"%char s); [discriminate|].
  intros _. now rewrite IH.
Qed.

Lemma prefix_app_colon (p : string) :
  StdString.find_char COLON p = None ->
  forall k t : string,
    String.prefix p k = false ->
    String.prefix p (k ++ String COLON t) = false.
Proof.
  induction p as [|x p IH]; intros Hp k t Hk.
  - rewrite prefix_empty_l in Hk. discriminate.
  - cbn [StdString.find_char] in Hp.
    destruct (Ascii.eqb x COLON) eqn:X; [discriminate|].
    destruct (StdString.find_char COLON p) eqn:F; [discriminate|].
    destruct k as [|a k].
    + change (("" ++ String COLON t)%string) with (String COLON t).
      rewrite prefix_String. destruct (ascii_dec x COLON) as [E|E]; [|reflexivity].
      apply Ascii.eqb_neq in X. contradiction.
    + change ((String a k ++ String COLON t)%string) with (String a (k ++ String COLON t)).
      rewrite prefix_String in Hk |- *.
      destruct (ascii_dec x a); [|reflexivity]. now apply IH.
Qed.

Lemma request_header_lines_of (this : addr) (opt : Options) (r : request) :
  request_header_lines (request_options this opt r)
  = map (fun kv => c_str (fst kv ++ ": " ++ snd kv)) (headers_of r).
Proof.
  unfold request_header_lines, request_options, baseline_options,
    method_options, header_options.
  destruct (user_agent opt) as [[|a ua]|]; destruct r as [u [|h hs]|u d [|h hs]];
    reflexivity.
Qed.

Lemma echo_streams_tail (lines : list string) :
  header_lines (map (fun h => HeaderData (h ++ CRLF)) lines ++ [HeaderData CRLF])
  = map (fun h => (h ++ CRLF)%string) lines ++ [CRLF]
  /\ body_chunks (map (fun h => HeaderData (h ++ CRLF)) lines ++ [HeaderData CRLF])
     = [].
Proof.
  unfold header_lines, body_chunks.
  induction lines as [|l lines [IH1 IH2]]; [split; reflexivity|].
  simpl. simpl in IH1, IH2. rewrite IH1, IH2. split; reflexivity.
Qed.

Lemma echo_streams (s : string) (lines : list string) :
  header_lines (HeaderData s :: map (fun h => HeaderData (h ++ CRLF)) lines
                ++ [HeaderData CRLF])
  = s :: map (fun h => (h ++ CRLF)%string) lines ++ [CRLF]
  /\ body_chunks (HeaderData s :: map (fun h => HeaderData (h ++ CRLF)) lines
                  ++ [HeaderData CRLF]) = [].
Proof.
  destruct (echo_streams_tail lines) as [T1 T2].
  unfold header_lines, body_chunks in *. simpl. simpl in T1, T2.
  rewrite T1, T2. split; reflexivity.
Qed.

Lemma plain_header_line (kv : string * string) :
  plain_header kv = true ->
  let l := c_str (fst kv ++ ": " ++ snd kv) in
  is_status_line (l ++ CRLF) = false
  /\ is_blank_line (l ++ CRLF) = false
  /\ split_header_line (line_text (l ++ CRLF)) = kv.
Proof.
  destruct kv as [k v]. intros H l. subst l. unfold plain_header in H.
  cbn [fst snd] in H |- *.
  apply andb_true_iff in H as [H H4]. apply andb_true_iff in H as [H H0].
  apply andb_true_iff in H as [H H3]. apply andb_true_iff in H as [H1 H2].
  destruct (StdString.find_char COLON k) eqn:F1; [discriminate|].
  destruct (StdString.find_char "000"%char (k ++ ": " ++ v)) eqn:F0; [discriminate|].
  destruct (StdString.find CRLF (k ++ ": " ++ v)) eqn:F4; [discriminate|].
  apply negb_true_iff in H2, H3.
  rewrite (c_str_plain _ F0). set (l := (k ++ ": " ++ v)%string).
  assert (E : (l ++ CRLF)%string = (k ++ String COLON (" " ++ v ++ CRLF))%string).
  { unfold l. now rewrite append_assoc. }
  split; [|split].
  - rewrite E. unfold is_status_line. now apply prefix_app_colon.
  - apply text_not_blank; [|exact F4]. unfold l. now destruct k.
  - destruct (line_text_of l F4) as [_ ->]. unfold l.
    apply (split_of_composed k v F1 H3).
Qed.

Lemma echoed_lines (hs : list (string * string)) :
  forallb plain_header hs = true ->
  let lines := map (fun h => (h ++ CRLF)%string)
                   (map (fun kv => c_str (fst kv ++ ": " ++ snd kv)) hs)
               ++ [CRLF] in
  existsb is_status_line lines = false /\ parsed_pairs lines = hs.
Proof.
  induction hs as [|kv hs IH]; intros H lines.
  - split; reflexivity.
  - cbn [forallb] in H. apply andb_true_iff in H as [Hkv Hhs].
    destruct (IH Hhs) as [IH1 IH2].
    destruct (plain_header_line kv Hkv) as (P1 & P2 & P3).
    unfold lines, parsed_pairs in *. cbn [map app existsb List.filter].
    rewrite P1, P2. cbn [orb negb map]. rewrite P3, IH1, IH2. auto.
Qed.

Section Echo.

Variable strerror : Z -> string.

(** X8: what the wrapper sends as request headers parses back: against a
    collaborator that returns the request's header lines, as the engine
    holds them, as its response headers, a request whose headers are plain
    pairs (in particular without a zero byte, at which the engine's copy of
    a line ends) gets exactly its own header list back, in order, with
    status 200 and an empty body. *)
Theorem echoed_headers_come_back (w : World) (this : addr) (id : nat)
        (c : HttpClient) (e : Easy) (r : request) :
  live w this id c e ->
  forallb plain_header (headers_of r) = true ->
  exists w' : World,
    send strerror this r echo_headers_net w
    = (Return {| status := 200; body := ""; headers := headers_of r |}, w').
Proof.
  intros L P. rewrite (send_live strerror _ _ _ _ _ r echo_headers_net L).
  eexists. f_equal. unfold outcome_of, response_of.
  cbn [echo_headers_net result final_code events Z.eqb CURLE_OK].
  rewrite request_header_lines_of.
  destruct (echo_streams ("HTTP/1.1 200 OK" ++ CRLF)
              (map (fun kv => c_str (fst kv ++ ": " ++ snd kv)) (headers_of r)))
    as [-> ->].
  destruct (echoed_lines (headers_of r) P) as [E1 E2].
  cbn [final_section]. rewrite E1.
  change (is_status_line ("HTTP/1.1 200 OK" ++ CRLF)) with true. cbv iota.
  rewrite E2. reflexivity.
Qed.

End Echo.

(** ** Sizes and raw buffers *)

Lemma length_append (s t : string) :
  String.length (s ++ t) = String.length s + String.length t.
Proof.
  induction s as [|a s IH]; [reflexivity|].
  change ((String a s ++ t)%string) with (String a (s ++ t)).
  cbn [String.length]. now rewrite IH.
Qed.

Lemma length_concat_bytes (chunks : list string) :
  String.length (concat_bytes chunks) = total_length chunks.
Proof.
  induction chunks as [|d chunks IH]; [reflexivity|].
  cbn [concat_bytes total_length fold_right]. rewrite length_append.
  f_equal. exact IH.
Qed.

Lemma find_CRLF_before (content rest : string) :
  StdString.find CRLF content = None ->
  StdString.find CRLF (content ++ CRLF ++ rest) = Some (String.length content).
Proof.
  induction content as [|c content IH]; intros H.
  - change (("" ++ CRLF ++ rest)%string) with (String CR (String LF rest)).
    cbn [StdString.find].
    assert (P : String.prefix CRLF (String CR (String LF rest)) = true)
      by (apply prefix_CRLF; eauto).
    now rewrite P.
  - cbn [StdString.find] in H.
    destruct (String.prefix CRLF (String c content)) eqn:P; [discriminate|].
    destruct (StdString.find CRLF content) eqn:F; [discriminate|].
    change ((String c content ++ CRLF ++ rest)%string)
      with (String c (content ++ CRLF ++ rest)).
    cbn [StdString.find]. rewrite (IH eq_refl). cbn [option_map String.length].
    destruct (String.prefix CRLF (String c (content ++ CRLF ++ rest))) eqn:Q;
      [|reflexivity].
    exfalso. apply prefix_CRLF in Q. destruct Q as [t Q].
    injection Q as -> Q.
    destruct content as [|b content].
    + simpl in Q. discriminate.
    + simpl in Q. injection Q as -> _.
      assert (String.prefix CRLF (String CR (String LF content)) = true)
        by (apply prefix_CRLF; eauto).
      congruence.
Qed.

Lemma blank_buffer (first rest : string) :
  is_blank_line (first ++ CRLF ++ rest)
  = StdString.empty first && StdString.empty rest.
Proof.
  unfold is_blank_line.
  destruct first as [|a first].
  - change (("" ++ CRLF ++ rest)%string) with (String CR (String LF rest)).
    cbn [StdString.empty orb andb]. destruct rest as [|b rest].
    + reflexivity.
    + apply String.eqb_neq. unfold CRLF. discriminate.
  - change ((String a first ++ CRLF ++ rest)%string)
      with (String a (first ++ CRLF ++ rest)).
    cbn [StdString.empty orb andb]. apply String.eqb_neq. unfold CRLF.
    intros E. injection E as _ E.
    destruct first as [|b first]; [discriminate E|].
    change ((String b first ++ String CR (String LF "") ++ rest)%string)
      with (String b (first ++ String CR (String LF "") ++ rest)) in E.
    injection E as _ E. destruct first; discriminate E.
Qed.

Section Sizes.

Variable strerror : Z -> string.

(** X9: the size of the returned body is the number of bytes the engine
    delivered to the body callback, over all its invocations. *)
Theorem body_size_is_bytes_delivered (w : World) (this : addr) (id : nat)
        (c : HttpClient) (e : Easy) (r : request) (net : Network) :
  live w this id c e ->
  result (net (request_options this (opt_ c) r)) = CURLE_OK ->
  exists (resp : Response) (w' : World),
    send strerror this r net w = (Return resp, w')
    /\ String.length (body resp)
       = total_length (body_chunks (events (net (request_options this (opt_ c) r)))).
Proof.
  intros L R. rewrite (send_live strerror _ _ _ _ _ r net L).
  unfold outcome_of. rewrite R. cbn [Z.eqb CURLE_OK].
  eexists _, _. split; [reflexivity|]. cbn [response_of body].
  apply length_concat_bytes.
Qed.

End Sizes.

(** X10: the header callback cuts its buffer at the first line ending and
    ignores whatever follows it: a buffer that is not a status line stores
    the split of the text in front of that line ending, nothing at all when
    the buffer is the bare line ending, and the pair of two empty strings
    when it begins with a line ending and goes on. *)
Theorem header_buffer_cut_at_line_ending (w : World) (this : addr)
        (c : HttpClient) (first rest : string) :
  heap w !! this = Some c ->
  StdString.find CRLF first = None ->
  is_status_line (first ++ CRLF ++ rest) = false ->
  write_header_cb (first ++ CRLF ++ rest) this w
  = (Return (String.length first + 2 + String.length rest),
     with_heap w
       (<[this := if StdString.empty first && StdString.empty rest then c
                  else set_hdr_acc (hdr_acc_ c ++ [split_header_line first]) c]>
          (heap w))).
Proof.
  intros Hc Hf Hs. unfold write_header_cb, bind, update, ret. rewrite Hc.
  rewrite !length_append. cbn [String.length CRLF Nat.add].
  replace (String.length first + S (S (String.length rest)))
    with (String.length first + 2 + String.length rest) by lia.
  do 3 f_equal.
  rewrite header_line_received_cases, Hs, blank_buffer.
  unfold line_text. rewrite (find_CRLF_before first rest Hf).
  unfold StdString.substr. cbn [StdString.skip]. rewrite first_n_length_app.
  reflexivity.
Qed.

(** ** The demonstration program *)

Lemma dtor_put (v : World) (this : addr) (c : HttpClient) (id : nat) (e : Easy) :
  h_ c = Some id ->
  HttpClient_dtor this (put v this c id e)
  = (Return tt,
     {| g_curl_once := g_curl_once v; next_easy := next_easy v;
        easy := delete id (easy v); cleaned := cleaned v ++ [id];
        heap := delete this (heap v) |}).
Proof.
  intros Hh.
  rewrite (dtor_of_owner id (put v this c id e) this c e)
    by (try exact Hh; apply lookup_insert_eq).
  cbn [put g_curl_once next_easy easy cleaned heap].
  now rewrite !delete_insert_eq.
Qed.

Lemma init_succeeds_true (env : Env) (w : World) :
  init_succeeds env w = true
  <-> (g_curl_once w = true \/ global_init_rc env = 0%Z) /\ easy_init_ok env = true.
Proof.
  unfold init_succeeds. rewrite andb_true_iff, orb_true_iff, Z.eqb_eq. tauto.
Qed.

Section Program.

Variable strerror : Z -> string.

Context (client : addr) (env : Env) (net_get net_post : Network) (w : World).

Lemma main_without_global_init :
  g_curl_once w = false ->
  global_init_rc env <> 0%Z ->
  main strerror client env net_get net_post w
  = (mkExit (Return 1%Z) "" ("HTTP Error: curl_global_init failed" ++ NL),
     with_heap w (delete client (heap w))).
Proof.
  intros G N. unfold main. now rewrite ctor_global_init_fails.
Qed.

Lemma main_without_handle :
  g_curl_once w = true \/ global_init_rc env = 0%Z ->
  easy_init_ok env = false ->
  main strerror client env net_get net_post w
  = (mkExit (Return 1%Z) "" ("HTTP Error: curl_easy_init failed" ++ NL),
     once_fired (with_heap w (delete client (heap w)))).
Proof.
  intros G K. unfold main. now rewrite ctor_easy_init_fails.
Qed.

Lemma main_with_handle :
  g_curl_once w = true \/ global_init_rc env = 0%Z ->
  easy_init_ok env = true ->
  main strerror client env net_get net_post w
  = (let tg := net_get (main_get_options client) in
     let tp := net_post (main_post_options client) in
     if negb (result tg =? CURLE_OK)%Z then
       mkExit (Return 1%Z) ""
              ("HTTP Error: curl_easy_perform failed: " ++ strerror (result tg) ++ NL)
     else if negb (result tp =? CURLE_OK)%Z then
       mkExit (Return 1%Z) (get_report (response_of tg))
              ("HTTP Error: curl_easy_perform failed: " ++ strerror (result tp) ++ NL)
     else
       mkExit (Return 0%Z)
              (get_report (response_of tg) ++ post_report (response_of tp)) "",
     after_run client w).
Proof.
  intros G K. unfold main. rewrite ctor_succeeds by assumption.
  change (get strerror client get_url get_headers net_get)
    with (send strerror client (GET get_url get_headers) net_get).
  rewrite send_put by reflexivity. cbn [opt_].
  fold (main_get_options client). set (tg := net_get (main_get_options client)).
  set (c0 := mkHttpClient (Some (next_easy w)) main_options "" []).
  destruct (after_transfer_keeps c0 tg) as [K1 K2].
  unfold outcome_of at 1. cbv zeta.
  destruct (result tg =? CURLE_OK)%Z; cbn [negb].
  - change (post strerror client post_url postData post_headers net_post)
      with (send strerror client (POST post_url postData post_headers) net_post).
    rewrite send_put by (rewrite K1; reflexivity).
    rewrite K2. cbn [opt_ c0]. fold (main_post_options client).
    set (tp := net_post (main_post_options client)).
    destruct (after_transfer_keeps (after_transfer c0 tg) tp) as [J1 _].
    unfold outcome_of, leave_scope.
    destruct (result tp =? CURLE_OK)%Z; cbn [negb];
      rewrite dtor_put by (rewrite J1, K1; reflexivity); reflexivity.
  - unfold leave_scope.
    rewrite dtor_put by (rewrite K1; reflexivity). reflexivity.
Qed.

End Program.

Lemma first_n_is_prefix (n : nat) (s : string) :
  s = (StdString.first_n n s ++ StdString.skip n s)%string
  /\ String.length (StdString.first_n n s) = Nat.min n (String.length s).
Proof.
  revert s; induction n as [|n IH]; intros s.
  - split; reflexivity.
  - destruct s as [|a s]; [split; reflexivity|].
    destruct (IH s) as [IH1 IH2]. cbn [StdString.first_n StdString.skip String.length].
    change ((String a (StdString.first_n n s) ++ StdString.skip n s)%string)
      with (String a (StdString.first_n n s ++ StdString.skip n s)).
    rewrite <- IH1, IH2. split; reflexivity.
Qed.

Section ProgramProperties.

Variable strerror : Z -> string.

Context (client : addr) (env : Env) (net_get net_post : Network) (w : World).


(** X12: the program leaves nothing behind, however it ends: run in free
    storage with a fresh handle identity, it leaves the objects and the live
    handles as it found them, and the handle it allocated, if it got one,
    has been released. *)
Theorem main_leaves_nothing_behind :
  heap w !! client = None ->
  easy w !! next_easy w = None ->
  let w' := snd (main strerror client env net_get net_post w) in
  heap w' = heap w
  /\ easy w' = easy w
  /\ cleaned w' = cleaned w ++ (if init_succeeds env w then [next_easy w] else []).
Proof.
  intros Hfree Hfresh w'. subst w'.
  destruct (ctor_cases env w) as [[G N] | [[G K] | [G K]]].
  - rewrite main_without_global_init by assumption.
    assert (I : init_succeeds env w = false).
    { unfold init_succeeds. apply Z.eqb_neq in N. now rewrite G, N. }
    rewrite I, app_nil_r. cbn [snd with_heap heap easy cleaned].
    now rewrite delete_id.
  - rewrite main_without_handle by assumption.
    assert (I : init_succeeds env w = false).
    { unfold init_succeeds. rewrite K. apply andb_false_r. }
    rewrite I, app_nil_r. cbn [snd once_fired with_heap heap easy cleaned].
    now rewrite delete_id.
  - rewrite main_with_handle by assumption.
    assert (I : init_succeeds env w = true) by (apply init_succeeds_true; auto).
    rewrite I. cbn [snd after_run heap easy cleaned].
    now rewrite !delete_id.
Qed.

(** X13: the program prints the report of a request only after that request
    succeeded, the GET report first, and does not attempt the POST after a
    failed GET, nor any request without a handle; each body preview is the
    first 200 bytes of the body, or all of it when it is shorter. *)
Theorem main_output :
  let tg := net_get (main_get_options client) in
  let tp := net_post (main_post_options client) in
  let x := fst (main strerror client env net_get net_post w) in
  cout x
  = (if init_succeeds env w && (result tg =? CURLE_OK)%Z
     then (get_report (response_of tg)
           ++ (if (result tp =? CURLE_OK)%Z then post_report (response_of tp) else ""))%string
     else EmptyString)
  /\ (init_succeeds env w && (result tg =? CURLE_OK)%Z = false ->
      forall net_post' : Network,
        main strerror client env net_get net_post' w
        = main strerror client env net_get net_post w)
  /\ (init_succeeds env w = false ->
      forall net_get' : Network,
        main strerror client env net_get' net_post w
        = main strerror client env net_get net_post w)
  /\ (forall resp : Response,
        exists rest : string,
          body resp = (StdString.substr 0 (Some 200) (body resp) ++ rest)%string
          /\ String.length (StdString.substr 0 (Some 200) (body resp))
             = Nat.min 200 (String.length (body resp))).
Proof.
  intros tg tp x. subst x.
  assert (P : forall resp : Response,
             exists rest : string,
               body resp = (StdString.substr 0 (Some 200) (body resp) ++ rest)%string
               /\ String.length (StdString.substr 0 (Some 200) (body resp))
                  = Nat.min 200 (String.length (body resp))).
  { intros resp. destruct (first_n_is_prefix 200 (body resp)) as [P1 P2].
    exists (StdString.skip 200 (body resp)). split; [exact P1 | exact P2]. }
  destruct (ctor_cases env w) as [[G N] | [[G K] | [G K]]].
  - assert (I : init_succeeds env w = false).
    { unfold init_succeeds. apply Z.eqb_neq in N. now rewrite G, N. }
    rewrite I. cbn [andb]. rewrite main_without_global_init by assumption.
    repeat split; try exact P; intros; now rewrite !main_without_global_init.
  - assert (I : init_succeeds env w = false).
    { unfold init_succeeds. rewrite K. apply andb_false_r. }
    rewrite I. cbn [andb]. rewrite main_without_handle by assumption.
    repeat split; try exact P; intros; now rewrite !main_without_handle.
  - assert (I : init_succeeds env w = true) by (apply init_succeeds_true; auto).
    rewrite I. cbn [andb]. rewrite main_with_handle by assumption.
    cbv zeta. fold tg tp. split; [|split; [|split; [discriminate | exact P]]].
    + destruct (result tg =? CURLE_OK)%Z; cbn [negb fst cout]; [|reflexivity].
      destruct (result tp =? CURLE_OK)%Z; cbn [negb cout]; [reflexivity|].
      now rewrite append_empty_r.
    + intros E net_post'. rewrite !main_with_handle by assumption.
      cbv zeta. fold tg. now rewrite E.
Qed.

End ProgramProperties.

Lemma main_leaves_nothing_behind_witness :
  heap world0 !! 7 = None
  /\ easy world0 !! next_easy world0 = None
  /\ cleaned (snd (main sample_strerror 7 good_env redirect_net failing_net world0)) = [0]
  /\ easy (snd (main sample_strerror 7 good_env redirect_net failing_net world0)) = ∅.
Proof.
  assert (H1 : heap world0 !! 7 = None) by reflexivity.
  assert (H2 : easy world0 !! next_easy world0 = None) by reflexivity.
  split; [exact H1|]. split; [exact H2|].
  destruct (main_leaves_nothing_behind sample_strerror 7 good_env redirect_net
              failing_net world0 H1 H2) as (_ & E & C).
  split; [exact C | exact E].
Defined.

(** ** The header list as a resource *)

Section SlistFacts.

Import OwnedSlist.

Lemma add_to_null (this : addr) (h : string) (m : Mem) :
  objs m !! this = Some None ->
  add this h true m
  = Some {| nodes := <[next_node m := [c_str h]]> (nodes m);
            next_node := S (next_node m); freed := freed m;
            objs := <[this := Some (next_node m)]> (objs m) |}.
Proof. unfold add. intros ->. reflexivity. Qed.

Lemma add_to_list (this : addr) (h : string) (l : nat) (items : list string) (m : Mem) :
  objs m !! this = Some (Some l) ->
  nodes m !! l = Some items ->
  add this h true m
  = Some {| nodes := <[l := items ++ [c_str h]]> (nodes m);
            next_node := next_node m; freed := freed m;
            objs := <[this := Some l]> (objs m) |}.
Proof. unfold add, curl_slist_append. intros -> ->. reflexivity. Qed.

Lemma add_refused (this : addr) (h : string) (ptr : option nat) (m : Mem) :
  objs m !! this = Some ptr ->
  add this h false m = Some (with_objs m (<[this := None]> (objs m))).
Proof. unfold add, curl_slist_append. intros ->. reflexivity. Qed.

Lemma add_each_app (this : addr) (calls1 calls2 : list (string * bool)) (m : Mem) :
  add_each this (calls1 ++ calls2) m
  = match add_each this calls1 m with
    | Some m' => add_each this calls2 m'
    | None => None
    end.
Proof.
  revert m; induction calls1 as [|[h ok] calls1 IH]; intros m; [reflexivity|].
  cbn [app add_each]. destruct (add this h ok m); [apply IH | reflexivity].
Qed.

Lemma add_each_to_list (this : addr) (lines : list string) :
  forall (l : nat) (items : list string) (m : Mem),
    objs m !! this = Some (Some l) ->
    nodes m !! l = Some items ->
    add_each this (map (fun h => (h, true)) lines) m
    = Some {| nodes := <[l := items ++ map c_str lines]> (nodes m);
              next_node := next_node m; freed := freed m;
              objs := objs m |}.
Proof.
  induction lines as [|h lines IH]; intros l items m Ho Hn.
  - cbn [map add_each]. rewrite app_nil_r, insert_id by exact Hn. now destruct m.
  - cbn [map add_each]. rewrite (add_to_list this h l items m Ho Hn).
    rewrite (IH l (items ++ [c_str h])); cbn [objs nodes next_node freed].
    + rewrite insert_insert_eq, <- app_assoc.
      rewrite (insert_id (objs m)) by exact Ho. reflexivity.
    + apply lookup_insert_eq.
    + apply lookup_insert_eq.
Qed.

Lemma add_each_from_null (this : addr) (first : string) (more : list string) (m : Mem) :
  objs m !! this = Some None ->
  add_each this (map (fun h => (h, true)) (first :: more)) m
  = Some {| nodes := <[next_node m := map c_str (first :: more)]> (nodes m);
            next_node := S (next_node m); freed := freed m;
            objs := <[this := Some (next_node m)]> (objs m) |}.
Proof.
  intros Ho. cbn [map add_each]. rewrite (add_to_null this first m Ho).
  rewrite (add_each_to_list this more (next_node m) [c_str first]);
    cbn [objs nodes next_node freed].
  - now rewrite insert_insert_eq.
  - apply lookup_insert_eq.
  - apply lookup_insert_eq.
Qed.

Lemma dtor_of_holder (this : addr) (l : nat) (items : list string) (m : Mem) :
  objs m !! this = Some (Some l) ->
  nodes m !! l = Some items ->
  dtor this m
  = Some {| nodes := delete l (nodes m); next_node := next_node m;
            freed := freed m ++ [l]; objs := delete this (objs m) |}.
Proof.
  unfold dtor, release, curl_slist_free_all. intros -> ->. reflexivity.
Qed.

Lemma dtor_of_empty (this : addr) (m : Mem) :
  objs m !! this = Some None ->
  dtor this m = Some (with_objs m (delete this (objs m))).
Proof. unfold dtor, release. intros ->. reflexivity. Qed.

End SlistFacts.

Section SlistProperties.

Import OwnedSlist.

(** X14: a header list built by [add], every allocation succeeding, is one
    engine list that holds the lines in the order added, each cut at its
    first zero byte (and unchanged when it has none); the destructor frees
    that list, once, and the memory is as before.  An [Slist] to which
    nothing was added owns nothing and its destructor frees nothing. *)
Theorem slist_built_in_order_and_freed (this : addr) (first : string)
        (more : list string) (m : Mem) :
  nodes m !! next_node m = None ->
  objs m !! this = None ->
  (exists m0 m1 m2 : Mem,
      ctor this m = Some m0
      /\ add_each this (map (fun h => (h, true)) (first :: more)) m0 = Some m1
      /\ objs m1 !! this = Some (Some (next_node m))
      /\ nodes m1 = <[next_node m := map c_str (first :: more)]> (nodes m)
      /\ dtor this m1 = Some m2
      /\ nodes m2 = nodes m
      /\ objs m2 = objs m
      /\ freed m2 = freed m ++ [next_node m])
  /\ (exists m0 m2 : Mem,
        ctor this m = Some m0
        /\ dtor this m0 = Some m2
        /\ nodes m2 = nodes m /\ objs m2 = objs m /\ freed m2 = freed m)
  /\ (forall s t : string,
        StdString.find_char "000"%char s = None ->
        c_str s = s /\ c_str (s ++ String "000"%char t) = s).
Proof.
  intros Hfresh Hfree. split; [|split].
  - eexists _, _, _. split; [reflexivity|].
    split; [apply add_each_from_null; apply lookup_insert_eq|].
    cbn [objs nodes next_node freed with_objs].
    split; [apply lookup_insert_eq|]. split; [reflexivity|].
    split.
    + eapply dtor_of_holder; apply lookup_insert_eq.
    + cbn [objs nodes next_node freed].
      rewrite insert_insert_eq, !delete_insert_id by assumption. auto.
  - eexists _, _. split; [reflexivity|]. split.
    + apply dtor_of_empty. apply lookup_insert_eq.
    + cbn [objs nodes freed with_objs]. now rewrite delete_insert_id.
  - intros s t Hs. split; [now apply c_str_plain | now apply c_str_cut].
Qed.

(** X15: [add] overwrites the pointer with what [curl_slist_append]
    returns, so an append the engine refuses loses the list: the object is
    left with the null pointer, the lines added before stay allocated, and
    the destructor does not free them. *)
Theorem refused_append_loses_the_list (this : addr) (first : string)
        (more : list string) (h : string) (m : Mem) :
  nodes m !! next_node m = None ->
  objs m !! this = Some None ->
  exists m1 m2 : Mem,
    add_each this (map (fun h => (h, true)) (first :: more) ++ [(h, false)]) m = Some m1
    /\ objs m1 !! this = Some None
    /\ nodes m1 !! next_node m = Some (map c_str (first :: more))
    /\ dtor this m1 = Some m2
    /\ nodes m2 !! next_node m = Some (map c_str (first :: more))
    /\ freed m2 = freed m.
Proof.
  intros Hfresh Ho. eexists _, _.
  split.
  { rewrite add_each_app, (add_each_from_null this first more m Ho).
    cbn [add_each]. erewrite add_refused by apply lookup_insert_eq. reflexivity. }
  cbn [objs nodes next_node freed with_objs].
  split; [apply lookup_insert_eq|]. split; [apply lookup_insert_eq|].
  split.
  { apply dtor_of_empty. apply lookup_insert_eq. }
  cbn [objs nodes next_node freed with_objs].
  split; [apply lookup_insert_eq | reflexivity].
Qed.

(** X16: moving an [Slist] hands its list over: after move construction or
    move assignment the destination holds the list and the source the null
    pointer, the source's destructor frees nothing and the destination's
    frees the list once; move assignment first frees the list the
    destination held, and assigning an object to itself changes nothing. *)
Theorem slist_move_transfers_the_list (this other : addr) (l : nat)
        (items : list string) (m : Mem) :
  objs m !! other = Some (Some l) ->
  nodes m !! l = Some items ->
  this <> other ->
  (exists m1 m2 m3 : Mem,
      move_ctor this other m = Some m1
      /\ objs m1 !! this = Some (Some l)
      /\ objs m1 !! other = Some None
      /\ dtor other m1 = Some m2
      /\ nodes m2 = nodes m /\ freed m2 = freed m
      /\ dtor this m2 = Some m3
      /\ nodes m3 = delete l (nodes m) /\ freed m3 = freed m ++ [l])
  /\ (forall (l' : nat) (items' : list string),
        objs m !! this = Some (Some l') ->
        nodes m !! l' = Some items' ->
        l' <> l ->
        exists m1 m2 m3 : Mem,
          move_assign this other m = Some m1
          /\ objs m1 !! this = Some (Some l)
          /\ objs m1 !! other = Some None
          /\ nodes m1 = delete l' (nodes m) /\ freed m1 = freed m ++ [l']
          /\ dtor other m1 = Some m2
          /\ nodes m2 = nodes m1 /\ freed m2 = freed m1
          /\ dtor this m2 = Some m3
          /\ nodes m3 = delete l (nodes m1) /\ freed m3 = freed m1 ++ [l])
  /\ move_assign other other m = Some m.
Proof.
  intros Ho Hn D. split; [|split].
  - unfold move_ctor. rewrite Ho. eexists _, _, _. split; [reflexivity|].
    cbn [objs with_objs].
    split; [rewrite lookup_insert_ne by congruence; apply lookup_insert_eq|].
    split; [apply lookup_insert_eq|].
    split; [apply dtor_of_empty; apply lookup_insert_eq|].
    cbn [objs nodes freed with_objs]. split; [reflexivity|]. split; [reflexivity|].
    split.
    + eapply dtor_of_holder; cbn [objs nodes with_objs]; [|exact Hn].
      rewrite lookup_delete_ne, lookup_insert_ne by congruence.
      apply lookup_insert_eq.
    + split; reflexivity.
  - intros l' items' Ht Hn' Dl. unfold move_assign.
    rewrite decide_True by exact D. rewrite Ht.
    unfold release, curl_slist_free_all. rewrite Hn'.
    cbn [objs]. rewrite Ho.
    eexists _, _, _. split; [reflexivity|]. cbn [objs nodes freed with_objs].
    split; [rewrite lookup_insert_ne by congruence; apply lookup_insert_eq|].
    split; [apply lookup_insert_eq|].
    split; [reflexivity|]. split; [reflexivity|].
    split; [apply dtor_of_empty; apply lookup_insert_eq|].
    cbn [objs nodes freed with_objs]. split; [reflexivity|]. split; [reflexivity|].
    split.
    + eapply dtor_of_holder; cbn [objs nodes with_objs].
      * rewrite lookup_delete_ne, lookup_insert_ne by congruence.
        apply lookup_insert_eq.
      * rewrite lookup_delete_ne by congruence. exact Hn.
    + split; reflexivity.
  - unfold move_assign. rewrite decide_False by auto. now rewrite Ho.
Qed.

End SlistProperties.

(** ** The further properties at work on samples *)


Lemma request_touches_only_its_session_witness :
  live two_sessions 7 0 used_client used_easy
  /\ heap (snd (send sample_strerror 7 (GET "http://example.org/" []) redirect_net
                     two_sessions)) !! 8
     = Some second_client
  /\ cleaned (snd (send sample_strerror 7 (GET "http://example.org/" []) redirect_net
                        two_sessions)) = [].
Proof.
  split; [exact two_sessions_live|].
  destruct (request_touches_only_its_session sample_strerror two_sessions 7 0
              used_client used_easy (GET "http://example.org/" []) redirect_net
              two_sessions_live)
    as (H & _ & C & _).
  split; [|exact C].
  etransitivity; [exact (H 8 ltac:(discriminate)) | vm_compute; reflexivity].
Defined.

Lemma construction_builds_ready_session_witness :
  HttpClient_ctor 7 main_options good_env world0
  = (Return tt, snd (HttpClient_ctor 7 main_options good_env world0))
  /\ live (snd (HttpClient_ctor 7 main_options good_env world0)) 7 0
          (mkHttpClient (Some 0) main_options "" [])
          (mkEasy (baseline_options 7 main_options) 0).
Proof.
  assert (C : HttpClient_ctor 7 main_options good_env world0
              = (Return tt, snd (HttpClient_ctor 7 main_options good_env world0))).
  { rewrite ctor_succeeds; [reflexivity | now right | reflexivity]. }
  split; [exact C|].
  destruct (construction_builds_ready_session 7 main_options good_env world0 _ C)
    as (L & _).
  exact L.
Defined.

Lemma construct_then_destroy_witness :
  heap world0 !! 7 = None
  /\ easy world0 !! next_easy world0 = None
  /\ HttpClient_ctor 7 main_options good_env world0
     = (Return tt, snd (HttpClient_ctor 7 main_options good_env world0))
  /\ exists w2 : World,
       HttpClient_dtor 7 (snd (HttpClient_ctor 7 main_options good_env world0))
       = (Return tt, w2)
       /\ heap w2 = ∅ /\ easy w2 = ∅ /\ cleaned w2 = [0].
Proof.
  assert (H1 : heap world0 !! 7 = None) by reflexivity.
  assert (H2 : easy world0 !! next_easy world0 = None) by reflexivity.
  assert (C : HttpClient_ctor 7 main_options good_env world0
              = (Return tt, snd (HttpClient_ctor 7 main_options good_env world0))).
  { rewrite ctor_succeeds; [reflexivity | now right | reflexivity]. }
  split; [exact H1|]. split; [exact H2|]. split; [exact C|].
  destruct (construct_then_destroy 7 main_options good_env world0 _ H1 H2 C)
    as (w2 & D & Hh & He & Hc).
  exists w2. auto.
Defined.

Lemma moved_to_session_serves_requests_witness :
  live two_sessions 7 0 used_client used_easy
  /\ 8 <> 7
  /\ exists w1 : World,
       HttpClient_move_assign 8 7 two_sessions = (Return tt, w1)
       /\ fst (send sample_strerror 8 (GET "http://example.org/" []) redirect_net w1)
          = Return {| status := 200; body := "hello";
                      headers := [("Content-Type", "text/plain"); ("Weird", "")] |}.
Proof.
  assert (D : 8 <> 7) by discriminate.
  split; [exact two_sessions_live|]. split; [exact D|].
  destruct (moved_to_session_serves_requests sample_strerror two_sessions 8 7 0
              used_client used_easy (GET "http://example.org/" []) redirect_net
              two_sessions_live D) as [_ A].
  assert (H8 : heap two_sessions !! 8 = Some second_client)
    by (vm_compute; reflexivity).
  destruct (A second_client H8) as (w1 & M & S & _).
  { intros id' [= <-]. split; [discriminate|]. vm_compute. eexists. reflexivity. }
  exists w1. split; [exact M | exact S].
Defined.

Lemma split_header_line_inverts_witness :
  StdString.find_char COLON "Content-Type" = None
  /\ all_blank (String SPACE (String TAB "")) = true
  /\ starts_blank "text/plain; charset=utf-8" = false
  /\ split_header_line
       ("Content-Type" ++ String COLON (String SPACE (String TAB "")
                                        ++ "text/plain; charset=utf-8"))
     = ("Content-Type", "text/plain; charset=utf-8").
Proof.
  split; [reflexivity|]. split; [reflexivity|]. split; [reflexivity|].
  apply (split_header_line_inverts "Content-Type" (String SPACE (String TAB ""))
           "text/plain; charset=utf-8"); reflexivity.
Defined.

Lemma echoed_headers_come_back_witness :
  live session_world 7 0 used_client used_easy
  /\ forallb plain_header
       (headers_of (POST post_url postData
                         [("Content-Type", "application/json"); ("X-Trace", "a:b")]))
     = true
  /\ exists w' : World,
       send sample_strerror 7
            (POST post_url postData
                  [("Content-Type", "application/json"); ("X-Trace", "a:b")])
            echo_headers_net session_world
       = (Return {| status := 200; body := "";
                    headers := [("Content-Type", "application/json");
                                ("X-Trace", "a:b")] |}, w').
Proof.
  split; [exact session_world_live|]. split; [reflexivity|].
  apply (echoed_headers_come_back sample_strerror session_world 7 0
           used_client used_easy
           (POST post_url postData
                 [("Content-Type", "application/json"); ("X-Trace", "a:b")])
           session_world_live eq_refl).
Defined.

Lemma body_size_is_bytes_delivered_witness :
  live session_world 7 0 used_client used_easy
  /\ exists (resp : Response) (w' : World),
       send sample_strerror 7 (GET get_url get_headers) redirect_net session_world
       = (Return resp, w')
       /\ String.length (body resp) = 5.
Proof.
  split; [exact session_world_live|].
  destruct (body_size_is_bytes_delivered sample_strerror session_world 7 0
              used_client used_easy (GET get_url get_headers) redirect_net
              session_world_live eq_refl) as (resp & w' & S & B).
  exists resp, w'. split; [exact S | exact B].
Defined.

Lemma header_buffer_cut_at_line_ending_witness :
  heap session_world !! 7 = Some used_client
  /\ StdString.find CRLF "A: b" = None
  /\ is_status_line ("A: b" ++ CRLF ++ "C: d") = false
  /\ write_header_cb ("A: b" ++ CRLF ++ "C: d") 7 session_world
     = (Return 10,
        with_heap session_world
          (<[7 := set_hdr_acc [("Old", "1"); ("A", "b")] used_client]>
             (heap session_world))).
Proof.
  assert (H1 : heap session_world !! 7 = Some used_client)
    by (vm_compute; reflexivity).
  split; [exact H1|]. split; [reflexivity|]. split; [reflexivity|].
  apply (header_buffer_cut_at_line_ending session_world 7 used_client
           "A: b" "C: d" H1 eq_refl eq_refl).
Defined.

Lemma slist_built_in_order_and_freed_witness :
  OwnedSlist.nodes slist_mem0 !! OwnedSlist.next_node slist_mem0 = None
  /\ OwnedSlist.objs slist_mem0 !! 3 = None
  /\ exists m0 m1 m2 : OwnedSlist.Mem,
       OwnedSlist.ctor 3 slist_mem0 = Some m0
       /\ OwnedSlist.add_each 3 [("Accept: text/plain", true); (zero_line, true)] m0
          = Some m1
       /\ OwnedSlist.nodes m1 = {[ 0 := ["Accept: text/plain"; "X-A: b"] ]}
       /\ OwnedSlist.dtor 3 m1 = Some m2
       /\ OwnedSlist.nodes m2 = ∅
       /\ OwnedSlist.freed m2 = [0].
Proof.
  assert (H1 : OwnedSlist.nodes slist_mem0 !! OwnedSlist.next_node slist_mem0 = None)
    by reflexivity.
  assert (H2 : OwnedSlist.objs slist_mem0 !! 3 = None) by reflexivity.
  split; [exact H1|]. split; [exact H2|].
  destruct (slist_built_in_order_and_freed 3 "Accept: text/plain" [zero_line]
              slist_mem0 H1 H2)
    as ((m0 & m1 & m2 & C & A & _ & N1 & D & N2 & _ & F) & _).
  exists m0, m1, m2. repeat split; assumption.
Defined.

Lemma refused_append_loses_the_list_witness :
  OwnedSlist.nodes slist_mem1 !! OwnedSlist.next_node slist_mem1 = None
  /\ OwnedSlist.objs slist_mem1 !! 3 = Some None
  /\ exists m1 m2 : OwnedSlist.Mem,
       OwnedSlist.add_each 3
         [("Accept: text/plain", true); ("X-Trace: 1", false)] slist_mem1
       = Some m1
       /\ OwnedSlist.objs m1 !! 3 = Some None
       /\ OwnedSlist.dtor 3 m1 = Some m2
       /\ OwnedSlist.nodes m2 !! 0 = Some ["Accept: text/plain"]
       /\ OwnedSlist.freed m2 = [].
Proof.
  assert (H1 : OwnedSlist.nodes slist_mem1 !! OwnedSlist.next_node slist_mem1 = None)
    by reflexivity.
  assert (H2 : OwnedSlist.objs slist_mem1 !! 3 = Some None)
    by (vm_compute; reflexivity).
  split; [exact H1|]. split; [exact H2|].
  destruct (refused_append_loses_the_list 3 "Accept: text/plain" [] "X-Trace: 1"
              slist_mem1 H1 H2)
    as (m1 & m2 & A & O & _ & D & N & F).
  exists m1, m2. repeat split; assumption.
Defined.

Lemma slist_move_transfers_the_list_witness :
  OwnedSlist.objs slist_mem2 !! 3 = Some (Some 0)
  /\ OwnedSlist.nodes slist_mem2 !! 0 = Some ["Accept: text/plain"]
  /\ 4 <> 3
  /\ exists m1 m2 m3 : OwnedSlist.Mem,
       OwnedSlist.move_assign 4 3 slist_mem2 = Some m1
       /\ OwnedSlist.freed m1 = [1]
       /\ OwnedSlist.dtor 3 m1 = Some m2
       /\ OwnedSlist.freed m2 = [1]
       /\ OwnedSlist.dtor 4 m2 = Some m3
       /\ OwnedSlist.freed m3 = [1; 0].
Proof.
  assert (H1 : OwnedSlist.objs slist_mem2 !! 3 = Some (Some 0))
    by (vm_compute; reflexivity).
  assert (H2 : OwnedSlist.nodes slist_mem2 !! 0 = Some ["Accept: text/plain"])
    by (vm_compute; reflexivity).
  assert (D : 4 <> 3) by discriminate.
  split; [exact H1|]. split; [exact H2|]. split; [exact D|].
  destruct (slist_move_transfers_the_list 4 3 0 ["Accept: text/plain"] slist_mem2
              H1 H2 D) as (_ & A & _).
  assert (H3 : OwnedSlist.objs slist_mem2 !! 4 = Some (Some 1))
    by (vm_compute; reflexivity).
  assert (H4 : OwnedSlist.nodes slist_mem2 !! 1 = Some ["X-Old: 1"])
    by (vm_compute; reflexivity).
  destruct (A 1 ["X-Old: 1"] H3 H4 ltac:(discriminate))
    as (m1 & m2 & m3 & M & _ & _ & _ & F1 & D1 & _ & F2 & D2 & _ & F3).
  exists m1, m2, m3. repeat split; try assumption.
  - rewrite F2. exact F1.
  - rewrite F3, F1. reflexivity.
Defined.

(** ** What a request does not inherit *)

Lemma method_settings_of (this : addr) (opt : Options) (r : request) :
  registered sel_postfields (request_options this opt r)
  = match r with
    | GET _ _ => None
    | POST _ data _ => Some data
    end.
Proof.
  unfold request_options, baseline_options, method_options, header_options.
  destruct (user_agent opt) as [[|a ua]|]; destruct r as [u [|h hs]|u d [|h hs]];
    reflexivity.
Qed.

Section Carryover.

Variable strerror : Z -> string.

(** X17: nothing of the previous request carries over to the next one on
    the same session: whatever the first request was and however it ended,
    the engine is consulted for the second with the header lines of the
    second only, each the C string of ["name: value"] (so cut at its first
    zero byte) in the caller's order, and with a body only when the second
    is a POST, its own. *)
Theorem nothing_carries_over (w : World) (this : addr) (id : nat)
        (c : HttpClient) (e : Easy) (r1 r2 : request) (net1 net2 : Network) :
  live w this id c e ->
  let w1 := snd (send strerror this r1 net1 w) in
  let opts2 := request_options this (opt_ c) r2 in
  send strerror this r2 net2 w1 = send strerror this r2 (fun _ => net2 opts2) w1
  /\ request_header_lines opts2
     = map (fun kv => c_str (fst kv ++ ": " ++ snd kv)) (headers_of r2)
  /\ registered sel_postfields opts2
     = match r2 with
       | GET _ _ => None
       | POST _ data _ => Some data
       end.
Proof.
  intros L w1 opts2. subst w1.
  rewrite (send_live strerror _ _ _ _ _ r1 net1 L). cbn [snd].
  set (t1 := net1 (request_options this (opt_ c) r1)).
  destruct (after_transfer_keeps c t1) as [K1 K2].
  assert (L1 : live (put w this (after_transfer c t1) id
                         (mkEasy (request_options this (opt_ c) r1) (final_code t1)))
                    this id (after_transfer c t1)
                    (mkEasy (request_options this (opt_ c) r1) (final_code t1))).
  { apply put_live. rewrite K1. apply L. }
  split; [|split].
  - rewrite (send_live strerror _ _ _ _ _ r2 net2 L1).
    rewrite (send_live strerror _ _ _ _ _ r2 (fun _ => net2 opts2) L1).
    rewrite K2. reflexivity.
  - apply request_header_lines_of.
  - apply method_settings_of.
Qed.

End Carryover.

Lemma nothing_carries_over_witness :
  live session_world 7 0 used_client used_easy
  /\ request_header_lines
       (request_options 7 (opt_ used_client)
          (GET get_url [("X-A", zero_value); ("Accept", "*/*")]))
     = ["X-A: b"; "Accept: */*"]
  /\ registered sel_postfields
       (request_options 7 (opt_ used_client)
          (GET get_url [("X-A", zero_value); ("Accept", "*/*")]))
     = None.
Proof.
  split; [exact session_world_live|].
  destruct (nothing_carries_over sample_strerror session_world 7 0 used_client
              used_easy (POST post_url postData post_headers)
              (GET get_url [("X-A", zero_value); ("Accept", "*/*")])
              redirect_net redirect_net session_world_live)
    as (_ & H & P).
  split; [exact H | exact P].
Defined.

(** ** The defaults *)

Section StrongDefaults.

Variable strerror : Z -> string.

(** X18: a default-constructed session runs every request, after any
    number of earlier ones, with a total timeout of 15000 ms, redirects
    followed, the user agent ["HttpClient/1.0"], and TLS verification of
    peer and host switched on. *)
Theorem default_session_settings (this : addr) (env : Env) (w w1 : World) :
  HttpClient_ctor_default this env w = (Return tt, w1) ->
  forall (calls : list (request * Network)) (r : request) (net : Network),
    let w2 := send_each strerror this calls w1 in
    let opts :=
      [ CURLOPT_WRITEFUNCTION cb_write_body; CURLOPT_WRITEDATA this;
        CURLOPT_HEADERFUNCTION cb_write_header; CURLOPT_HEADERDATA this;
        CURLOPT_TIMEOUT_MS 15000; CURLOPT_FOLLOWLOCATION 1;
        CURLOPT_USERAGENT "HttpClient/1.0";
        CURLOPT_SSL_VERIFYPEER 1; CURLOPT_SSL_VERIFYHOST 2 ]
      ++ method_options r in
    send strerror this r net w2 = send strerror this r (fun _ => net opts) w2
    /\ fst (send strerror this r net w2) = outcome_of strerror (net opts).
Proof.
  intros H calls r net w2 opts.
  destruct (ctor_returns _ _ _ _ _ H) as (id & e & L & _).
  destruct (send_each_live strerror this id calls _ _ _ L) as (c' & e' & L' & O').
  cbn [opt_] in O'. fold w2 in L'.
  rewrite (send_live strerror _ _ _ _ _ r net L').
  rewrite (send_live strerror _ _ _ _ _ r (fun _ => net opts) L').
  rewrite O'. split; reflexivity.
Qed.

End StrongDefaults.

Lemma default_session_settings_witness :
  HttpClient_ctor_default 7 good_env world0
  = (Return tt, snd (HttpClient_ctor_default 7 good_env world0))
  /\ fst (send sample_strerror 7 (GET get_url []) redirect_net
               (send_each sample_strerror 7 [(GET get_url [], failing_net)]
                  (snd (HttpClient_ctor_default 7 good_env world0))))
     = Return {| status := 200; body := "hello";
                 headers := [("Content-Type", "text/plain"); ("Weird", "")] |}.
Proof.
  assert (C : HttpClient_ctor_default 7 good_env world0
              = (Return tt, snd (HttpClient_ctor_default 7 good_env world0))).
  { unfold HttpClient_ctor_default.
    rewrite ctor_succeeds; [reflexivity | now right | reflexivity]. }
  split; [exact C|].
  destruct (default_session_settings sample_strerror 7 good_env world0 _ C
              [(GET get_url [], failing_net)] (GET get_url []) redirect_net)
    as [_ S].
  exact S.
Defined.
